(** * go-observability: request instrumentation pipeline and readiness aggregation

    A shallow embedding of the Go packages [trace], [logging], [metrics],
    [health] and [observability] of go-observability, together with the
    small parts of the
    libraries they call (net/http, context, zerolog, prometheus, chi, uuid),
    and the properties of the specification stated over that embedding.

    Conventions.
    - Go [int], [int64] and [time.Duration] values are [Z]; none of the
      modelled code does arithmetic that could leave the 64-bit range except
      the clock difference, which is a difference of two clock readings.
    - A Go [error] is [option string]: [None] is [nil], [Some m] is an error
      whose [Error()] text is [m].
    - The process-wide mutable state the packages touch (monotonic clock,
      random source of the UUID generator, standard output of the log sink,
      default Prometheus registry) is one record [Env] that every handler
      threads explicitly.
    - An [http.Handler] is a function that is polymorphic in the response
      writer it is handed, as the Go interface makes it.
    - Names are those of the source.  Where two of them would collide, or
      one is a reserved word, the second gets a trailing underscore:
      [http.Set_] for [Header.Set], [http.Header_] for the method [Header()],
      [health.Name_] for the field [CheckResult.Name], [health.Status_] for
      the field [HealthResponse.Status], [logging.Logger_] for the embedded
      [zerolog.Logger]. *)

From stdpp Require Import base strings list gmap.
From Stdlib Require Import ZArith.

Local Open Scope Z_scope.

Definition error : Type := option string.
Definition bytes : Type := list Byte.byte.

#[global] Instance byte_eq_dec : EqDecision Byte.byte := Byte.byte_eq_dec.
#[global] Instance bytes_eq_dec : EqDecision bytes := list_eq_dec.

(** ** time *)

Module time.
Definition Duration := Z.

Definition Nanosecond : Duration := 1.
Definition Millisecond : Duration := 1000000.
Definition Second : Duration := 1000000000.

(** [func (d Duration) Milliseconds() int64 { return int64(d) / 1e6 }]:
    Go's integer division truncates toward zero. *)
Definition Milliseconds (d : Duration) : Z := Z.quot d 1000000.
End time.

(** ** strconv *)

Module strconv.
Definition digit (n : Z) : Ascii.ascii :=
  Ascii.ascii_of_nat (Z.to_nat (48 + n)).

(** Decimal digits of a non-negative number, most significant first.
    [fuel] bounds the number of digits. *)
Fixpoint digits (fuel : nat) (n : Z) (acc : string) : string :=
  match fuel with
  | O => acc
  | S fuel' =>
      let acc' := String (digit (n mod 10)) acc in
      if n / 10 =? 0 then acc' else digits fuel' (n / 10) acc'
  end.

(** [strconv.Itoa]: base-10 text of an [int], with a leading minus sign
    for negative values. *)
Definition Itoa (i : Z) : string :=
  if i <? 0
  then String.append "-" (digits (S (Z.to_nat (Z.log2 (- i)))) (- i) EmptyString)
  else digits (S (Z.to_nat (Z.log2 i))) i EmptyString.
End strconv.

(** ** net/textproto and net/http: headers *)

Module textproto.
Definition isLower (c : Ascii.ascii) : bool :=
  let n := Z.of_nat (Ascii.nat_of_ascii c) in (97 <=? n) && (n <=? 122).
Definition isUpper (c : Ascii.ascii) : bool :=
  let n := Z.of_nat (Ascii.nat_of_ascii c) in (65 <=? n) && (n <=? 90).
Definition isDigit (c : Ascii.ascii) : bool :=
  let n := Z.of_nat (Ascii.nat_of_ascii c) in (48 <=? n) && (n <=? 57).
Definition toUpper (c : Ascii.ascii) : Ascii.ascii :=
  if isLower c then Ascii.ascii_of_nat (Ascii.nat_of_ascii c - 32) else c.
Definition toLower (c : Ascii.ascii) : Ascii.ascii :=
  if isUpper c then Ascii.ascii_of_nat (Ascii.nat_of_ascii c + 32) else c.

(** Header field names are HTTP tokens. *)
Definition validHeaderFieldByte (c : Ascii.ascii) : bool :=
  isLower c || isUpper c || isDigit c ||
  bool_decide (c ∈ String.list_ascii_of_string "!#$%&'*+-.^_`|~").

Fixpoint canonical (upper : bool) (s : string) : string :=
  match s with
  | EmptyString => EmptyString
  | String c s' =>
      String (if upper then toUpper c else toLower c)
             (canonical (bool_decide (c = Ascii.ascii_of_nat 45)) s')
  end.

(** [textproto.CanonicalMIMEHeaderKey]: the first letter and every letter
    after a hyphen in upper case, the others in lower case; a name that is
    not a token is returned as it is. *)
Definition CanonicalMIMEHeaderKey (s : string) : string :=
  if forallb validHeaderFieldByte (String.list_ascii_of_string s)
  then canonical true s else s.
End textproto.

Module http.
Definition StatusOK : Z := 200.
Definition StatusServiceUnavailable : Z := 503.

(** [type Header map[string][]string] *)
Abbreviation Header := (gmap string (list string)).

(** [Header.Get]: the first value of the canonical key, [""] if none. *)
Definition Get (h : Header) (key : string) : string :=
  match h !! textproto.CanonicalMIMEHeaderKey key with
  | Some (v :: _) => v
  | _ => ""
  end.

(** [Header.Set]: replaces the values of the canonical key by the one
    given. *)
Definition Set_ (h : Header) (key value : string) : Header :=
  <[textproto.CanonicalMIMEHeaderKey key := [value]]> h.

(** [http.ResponseWriter].  [Header()] hands out the writer's header map by
    reference, so that the caller's [Set] changes the writer: the interface
    has the reader [Header] and the write-back [putHeader], related by
    [Header_putHeader].  [Write] returns the writer and Go's result pair
    [(n, err)]. *)
Class ResponseWriter (W : Type) := {
  Header_ : W → Header;
  putHeader : Header → W → W;
  Write : bytes → W → W * (Z * error);
  WriteHeader : Z → W → W;
  Header_putHeader : ∀ h w, Header_ (putHeader h w) = h
}.

(** One call on a response writer's two writing methods. *)
Inductive Call :=
  | CallWriteHeader (code : Z)
  | CallWrite (b : bytes).

#[global] Instance Call_eq_dec : EqDecision Call.
Proof. solve_decision. Defined.

Definition perform `{ResponseWriter W} (c : Call) (w : W) : W :=
  match c with
  | CallWriteHeader code => WriteHeader code w
  | CallWrite b => fst (Write b w)
  end.

(** The calls of a downstream handler, made one after the other. *)
Definition performAll `{ResponseWriter W} (cs : list Call) (w : W) : W :=
  fold_left (λ w c, perform c w) cs w.

(** A response writer that keeps its header map and the calls it received,
    in order; its [Write] accepts every byte. *)
Record Recorder := mkRecorder {
  rec_header : Header;
  rec_calls : list Call
}.

#[global] Instance Recorder_ResponseWriter : ResponseWriter Recorder := {|
  Header_ w := rec_header w;
  putHeader h w := mkRecorder h (rec_calls w);
  Write b w :=
    (mkRecorder (rec_header w) (rec_calls w ++ [CallWrite b]),
     (Z.of_nat (length b), None));
  WriteHeader code w :=
    mkRecorder (rec_header w) (rec_calls w ++ [CallWriteHeader code]);
  Header_putHeader := λ h w, eq_refl
|}.

(** [var ErrAbortHandler = errors.New("net/http: abort Handler")], by its
    text. *)
Definition ErrAbortHandler : string := "net/http: abort Handler".

Definition MethodGet : string := "GET".
End http.

(** ** zerolog: loggers, events and the lines they write *)

Module zerolog.
Inductive Level := TraceLevel | DebugLevel | InfoLevel | WarnLevel | ErrorLevel.

#[global] Instance Level_eq_dec : EqDecision Level.
Proof. solve_decision. Defined.

(** The numeric values of the library's level constants. *)
Definition levelValue (l : Level) : Z :=
  match l with
  | TraceLevel => -1
  | DebugLevel => 0
  | InfoLevel => 1
  | WarnLevel => 2
  | ErrorLevel => 3
  end.

(** A typed key/value pair, as added by [Str], [Int] and [Int64]. *)
Inductive Field :=
  | Str (key val : string)
  | Int (key : string) (val : Z)
  | Int64 (key : string) (val : Z).

#[global] Instance Field_eq_dec : EqDecision Field.
Proof. solve_decision. Defined.

Definition fieldKey (f : Field) : string :=
  match f with Str k _ | Int k _ | Int64 k _ => k end.

(** A logger: its minimum level, the fields its [With()] context carries,
    and whether the timestamp hook is installed. *)
Record Logger := mkLogger {
  level : Level;
  context : list Field;
  timestamp : bool
}.

(** [zerolog.New(os.Stdout)] *)
Definition New : Logger := mkLogger TraceLevel [] false.

(** [l.Level(lvl)] *)
Definition Level_ (lvl : Level) (l : Logger) : Logger :=
  mkLogger lvl (context l) (timestamp l).

(** [l.With().Str(k, v).Logger()] *)
Definition WithStr (k v : string) (l : Logger) : Logger :=
  mkLogger (level l) (context l ++ [Str k v]) (timestamp l).

(** [l.With().Timestamp().Logger()] *)
Definition WithTimestamp (l : Logger) : Logger :=
  mkLogger (level l) (context l) true.

(** One line written to the sink. *)
Record Entry := mkEntry {
  entry_level : Level;
  entry_time : option Z;
  entry_fields : list Field;
  entry_message : string
}.

(** [l.should(lvl)]: an event below the logger's level is the nil event,
    on which every later call does nothing. *)
Definition should (l : Logger) (lvl : Level) : bool :=
  levelValue (level l) <=? levelValue lvl.

(** The line of [l.<Level>().<fields>.Msg(msg)] at clock reading [now], if
    one is written. *)
Definition line (l : Logger) (lvl : Level) (fields : list Field)
    (msg : string) (now : Z) : option Entry :=
  if should l lvl
  then Some (mkEntry lvl (if timestamp l then Some now else None)
                     (context l ++ fields) msg)
  else None.
End zerolog.

(** ** prometheus: the default registry *)

Module prometheus.
(** Values of the registered collectors, keyed by fully-qualified metric
    name and, for vectors, by the label values.  Counter and gauge values
    move in steps of one, so they are integers here; a histogram keeps the
    durations observed (the source observes their value in seconds). *)
Record Registry := mkRegistry {
  counters : gmap (string * list string) Z;
  histograms : gmap (string * list string) (list time.Duration);
  gauges : gmap string Z
}.

Definition empty : Registry := mkRegistry ∅ ∅ ∅.

(** [prometheus.BuildFQName(namespace, "", name)] *)
Definition BuildFQName (namespace name : string) : string :=
  if String.eqb name "" then ""
  else if String.eqb namespace "" then name
  else String.append namespace (String.append "_" name).

(** [vec.WithLabelValues(lvs...).Inc()] *)
Definition CounterInc (name : string) (lvs : list string) (r : Registry)
    : Registry :=
  mkRegistry
    (<[(name, lvs) := default 0 (counters r !! (name, lvs)) + 1]> (counters r))
    (histograms r) (gauges r).

(** [vec.WithLabelValues(lvs...).Observe(v)] *)
Definition HistogramObserve (name : string) (lvs : list string)
    (d : time.Duration) (r : Registry) : Registry :=
  mkRegistry (counters r)
    (<[(name, lvs) := default [] (histograms r !! (name, lvs)) ++ [d]]>
       (histograms r))
    (gauges r).

(** [gauge.Inc()] and [gauge.Dec()] *)
Definition GaugeInc (name : string) (r : Registry) : Registry :=
  mkRegistry (counters r) (histograms r)
    (<[name := default 0 (gauges r !! name) + 1]> (gauges r)).
Definition GaugeDec (name : string) (r : Registry) : Registry :=
  mkRegistry (counters r) (histograms r)
    (<[name := default 0 (gauges r !! name) - 1]> (gauges r)).

Definition counterValue (name : string) (lvs : list string) (r : Registry) : Z :=
  default 0 (counters r !! (name, lvs)).
Definition gaugeValue (name : string) (r : Registry) : Z :=
  default 0 (gauges r !! name).
Definition observations (name : string) (lvs : list string) (r : Registry)
    : list time.Duration :=
  default [] (histograms r !! (name, lvs)).
End prometheus.

(** ** chi: the routing context *)

(** [*chi.Context], reduced to what [RoutePattern()] returns.  The router
    fills the pattern in while it dispatches the request, so a middleware
    that reads it after the downstream handler has returned sees the
    pattern of the matched route ([""] when no route matched). *)
Record RouteCtx := mkRouteCtx { RoutePattern : string }.

(** ** context *)

Module context.
(** Keys, with the Go type each one has: two keys are equal only if they
    have the same type and the same value. *)
Inductive Key :=
  | StringKey (s : string)        (* string *)
  | TraceKey (s : string)         (* trace.contextKey *)
  | LoggingKey (s : string)       (* logging.contextKey *)
  | RouteCtxKey.                  (* chi.RouteCtxKey *)

#[global] Instance Key_eq_dec : EqDecision Key.
Proof. solve_decision. Defined.

(** Values, with their dynamic type. *)
Inductive Val :=
  | VString (s : string)                 (* string *)
  | VInt (i : Z)                         (* int *)
  | VLogger (l : zerolog.Logger)         (* *zerolog.Logger *)
  | VRouteCtx (rctx : RouteCtx).         (* *chi.Context *)

Inductive Context :=
  | Background
  | WithValue (parent : Context) (key : Key) (val : Val)
  | WithDeadline (parent : Context) (deadline : Z).

(** [ctx.Value(key)]: the value of the innermost binding of [key]; [None]
    is the nil interface. *)
Fixpoint Value (ctx : Context) (key : Key) : option Val :=
  match ctx with
  | Background => None
  | WithValue parent k v => if decide (k = key) then Some v else Value parent key
  | WithDeadline parent _ => Value parent key
  end.
End context.

Module chi.
(** [chi.RouteContext(ctx)]:
    [val, _ := ctx.Value(RouteCtxKey).( *Context); return val] *)
Definition RouteContext (ctx : context.Context) : option RouteCtx :=
  match context.Value ctx context.RouteCtxKey with
  | Some (context.VRouteCtx rctx) => Some rctx
  | _ => None
  end.
End chi.

(** ** The process environment and http.Handler *)

Record Env := mkEnv {
  now : Z;                        (* monotonic clock, in nanoseconds *)
  tokens : nat → string;          (* the tokens uuid.NewString will return *)
  stdout : list zerolog.Entry;    (* lines written to os.Stdout *)
  registry : prometheus.Registry  (* prometheus.DefaultRegisterer *)
}.

Definition setRegistry (f : prometheus.Registry → prometheus.Registry)
    (env : Env) : Env :=
  mkEnv (now env) (tokens env) (stdout env) (f (registry env)).

(** Writing an event: the line is appended to standard output, if the
    logger's level lets it through. *)
Definition emit (l : zerolog.Logger) (lvl : zerolog.Level)
    (fields : list zerolog.Field) (msg : string) (env : Env) : Env :=
  match zerolog.line l lvl fields msg (now env) with
  | Some e => mkEnv (now env) (tokens env) (stdout env ++ [e]) (registry env)
  | None => env
  end.

Module uuid.
(** [uuid.NewString()]: draws the next token of the random source. *)
Definition NewString (env : Env) : string * Env :=
  (tokens env 0%nat,
   mkEnv (now env) (λ n, tokens env (S n)) (stdout env) (registry env)).
End uuid.

Record Request := mkRequest {
  Method : string;
  URL_Path : string;
  RemoteAddr : string;
  ReqHeader : http.Header;
  Ctx : context.Context
}.

(** [r.WithContext(ctx)] *)
Definition Request_WithContext (r : Request) (ctx : context.Context) : Request :=
  mkRequest (Method r) (URL_Path r) (RemoteAddr r) (ReqHeader r) ctx.

(** [http.Handler]: [ServeHTTP(w, r)] for any response writer [w]. *)
Definition Handler : Type :=
  ∀ W : Type, http.ResponseWriter W → W → Request → Env → W * Env.

(** A handler that makes the given calls on its response writer, and whose
    other effects on the process are [eff]. *)
Definition scripted (cs : list http.Call) (eff : Env → Env) : Handler :=
  λ W _ w r env, (http.performAll cs w, eff env).

(** Time passing: the clock moves forward by [d]. *)
Definition elapse (d : time.Duration) (env : Env) : Env :=
  mkEnv (now env + d) (tokens env) (stdout env) (registry env).

(** ** package trace *)

Module trace.
Definition traceIDKey : context.Key := context.TraceKey "trace_id".
Definition requestIDKey : context.Key := context.TraceKey "request_id".

(** [Middleware]: reads or generates the two identifiers, stores them in
    the request context, echoes them on the response and calls [next]. *)
Definition Middleware (next : Handler) : Handler :=
  λ W _ w r env,
    let traceID := http.Get (ReqHeader r) "X-Trace-ID" in
    let '(traceID, env) :=
      if String.eqb traceID "" then uuid.NewString env else (traceID, env) in
    let requestID := http.Get (ReqHeader r) "X-Request-ID" in
    let '(requestID, env) :=
      if String.eqb requestID "" then uuid.NewString env else (requestID, env) in
    let ctx := context.WithValue (Ctx r) traceIDKey (context.VString traceID) in
    let ctx := context.WithValue ctx requestIDKey (context.VString requestID) in
    let w := http.putHeader (http.Set_ (http.Header_ w) "X-Trace-ID" traceID) w in
    let w := http.putHeader (http.Set_ (http.Header_ w) "X-Request-ID" requestID) w in
    next W _ w (Request_WithContext r ctx) env.

Definition TraceIDFromContext (ctx : context.Context) : string :=
  match context.Value ctx traceIDKey with
  | Some (context.VString traceID) => traceID
  | _ => ""
  end.

Definition RequestIDFromContext (ctx : context.Context) : string :=
  match context.Value ctx requestIDKey with
  | Some (context.VString requestID) => requestID
  | _ => ""
  end.

Definition WithTraceID (ctx : context.Context) (traceID : string)
    : context.Context :=
  context.WithValue ctx traceIDKey (context.VString traceID).

Definition WithRequestID (ctx : context.Context) (requestID : string)
    : context.Context :=
  context.WithValue ctx requestIDKey (context.VString requestID).
End trace.

(** ** package logging *)

Module logging.
Definition loggerKey : context.Key := context.LoggingKey "logger".

(** [Logger] embeds a [zerolog.Logger]. *)
Record Logger := mkLogger {
  Logger_ : zerolog.Logger;
  serviceName : string
}.

Definition NewLogger (serviceName : string) (debug : bool) : Logger :=
  let level := if debug then zerolog.DebugLevel else zerolog.InfoLevel in
  let logger :=
    zerolog.WithStr "service" serviceName
      (zerolog.WithTimestamp (zerolog.Level_ level zerolog.New)) in
  mkLogger logger serviceName.

(** [WithContext]: the keys looked up are the untyped string constants
    ["trace_id"], ["request_id"] and ["user_id"], so their Go type is
    [string]. *)
Definition WithContext (l : Logger) (ctx : context.Context) : zerolog.Logger :=
  let logger := Logger_ l in
  let logger :=
    match context.Value ctx (context.StringKey "trace_id") with
    | Some (context.VString id) => zerolog.WithStr "trace_id" id logger
    | _ => logger
    end in
  let logger :=
    match context.Value ctx (context.StringKey "request_id") with
    | Some (context.VString id) => zerolog.WithStr "request_id" id logger
    | _ => logger
    end in
  let logger :=
    match context.Value ctx (context.StringKey "user_id") with
    | Some (context.VString id) => zerolog.WithStr "user_id" id logger
    | _ => logger
    end in
  logger.

(** [responseWriter] wraps an [http.ResponseWriter] to capture the status
    code. *)
Record responseWriter (W : Type) := mkResponseWriter {
  ResponseWriter : W;
  statusCode : Z;
  written : bool
}.
Arguments mkResponseWriter {W}.
Arguments ResponseWriter {W}.
Arguments statusCode {W}.
Arguments written {W}.

Definition WriteHeader `{http.ResponseWriter W} (code : Z)
    (rw : responseWriter W) : responseWriter W :=
  if negb (written rw)
  then mkResponseWriter (http.WriteHeader code (ResponseWriter rw)) code true
  else rw.

Definition Write `{http.ResponseWriter W} (b : bytes)
    (rw : responseWriter W) : responseWriter W * (Z * error) :=
  let rw := if negb (written rw) then WriteHeader http.StatusOK rw else rw in
  let '(u, res) := http.Write b (ResponseWriter rw) in
  (mkResponseWriter u (statusCode rw) (written rw), res).

(** The promoted [Header] method and the two methods above make the
    wrapper an [http.ResponseWriter]. *)
#[global] Instance responseWriter_ResponseWriter `{http.ResponseWriter W}
    : http.ResponseWriter (responseWriter W) := {|
  http.Header_ rw := http.Header_ (ResponseWriter rw);
  http.putHeader h rw :=
    mkResponseWriter (http.putHeader h (ResponseWriter rw))
                     (statusCode rw) (written rw);
  http.Write := Write;
  http.WriteHeader := WriteHeader;
  http.Header_putHeader := λ h rw, http.Header_putHeader h (ResponseWriter rw)
|}.

(** The level of the completion event. *)
Definition completionLevel (status : Z) : zerolog.Level :=
  if 500 <=? status then zerolog.ErrorLevel
  else if 400 <=? status then zerolog.WarnLevel
  else zerolog.InfoLevel.

Definition Middleware (l : Logger) (next : Handler) : Handler :=
  λ W _ w r env,
    let start := now env in
    let logger := WithContext l (Ctx r) in
    let env :=
      emit logger zerolog.DebugLevel
        [zerolog.Str "http.method" (Method r);
         zerolog.Str "http.path" (URL_Path r);
         zerolog.Str "http.remote_addr" (RemoteAddr r)]
        "request started" env in
    let ww := mkResponseWriter w 0 false in
    let ctx := context.WithValue (Ctx r) loggerKey (context.VLogger logger) in
    let '(ww, env) := next _ _ ww (Request_WithContext r ctx) env in
    let duration := now env - start in
    let env :=
      emit logger (completionLevel (statusCode ww))
        [zerolog.Str "http.method" (Method r);
         zerolog.Str "http.path" (URL_Path r);
         zerolog.Int "http.status" (statusCode ww);
         zerolog.Int64 "duration_ms" (time.Milliseconds duration)]
        "request completed" env in
    (ResponseWriter ww, env).

Definition FromContext (ctx : context.Context) : zerolog.Logger :=
  match context.Value ctx loggerKey with
  | Some (context.VLogger logger) => logger
  | _ => zerolog.WithTimestamp zerolog.New
  end.
End logging.

(** ** package metrics *)

Module metrics.
(** [Collector]: the four registered collectors, each by its
    fully-qualified name in the registry. *)
Record Collector := mkCollector {
  requestsTotal : string;
  requestDuration : string;
  requestsInFlight : string;
  errorsTotal : string
}.

Definition NewCollector (namespace : string) : Collector :=
  mkCollector
    (prometheus.BuildFQName namespace "http_requests_total")
    (prometheus.BuildFQName namespace "http_request_duration_seconds")
    (prometheus.BuildFQName namespace "http_requests_in_flight")
    (prometheus.BuildFQName namespace "errors_total").

(** [responseWriter] wraps an [http.ResponseWriter] to capture the status
    code. *)
Record responseWriter (W : Type) := mkResponseWriter {
  ResponseWriter : W;
  statusCode : Z;
  written : bool
}.
Arguments mkResponseWriter {W}.
Arguments ResponseWriter {W}.
Arguments statusCode {W}.
Arguments written {W}.

Definition WriteHeader `{http.ResponseWriter W} (code : Z)
    (rw : responseWriter W) : responseWriter W :=
  if negb (written rw)
  then mkResponseWriter (http.WriteHeader code (ResponseWriter rw)) code true
  else rw.

Definition Write `{http.ResponseWriter W} (b : bytes)
    (rw : responseWriter W) : responseWriter W * (Z * error) :=
  let rw := if negb (written rw) then WriteHeader http.StatusOK rw else rw in
  let '(u, res) := http.Write b (ResponseWriter rw) in
  (mkResponseWriter u (statusCode rw) (written rw), res).

Definition Unwrap {W} (rw : responseWriter W) : W := ResponseWriter rw.

#[global] Instance responseWriter_ResponseWriter `{http.ResponseWriter W}
    : http.ResponseWriter (responseWriter W) := {|
  http.Header_ rw := http.Header_ (ResponseWriter rw);
  http.putHeader h rw :=
    mkResponseWriter (http.putHeader h (ResponseWriter rw))
                     (statusCode rw) (written rw);
  http.Write := Write;
  http.WriteHeader := WriteHeader;
  http.Header_putHeader := λ h rw, http.Header_putHeader h (ResponseWriter rw)
|}.

(** The [path] label: the route pattern if the request has a routing
    context with a non-empty pattern, otherwise the URL path. *)
Definition pathLabel (r : Request) : string :=
  match chi.RouteContext (Ctx r) with
  | Some rctx =>
      if negb (String.eqb (RoutePattern rctx) "")
      then RoutePattern rctx else URL_Path r
  | None => URL_Path r
  end.

(** [Middleware].  The deferred function runs when [next] has returned. *)
Definition Middleware (c : Collector) (next : Handler) : Handler :=
  λ W _ w r env,
    if String.eqb (URL_Path r) "/metrics" then next W _ w r env
    else
      let start := now env in
      let env := setRegistry (prometheus.GaugeInc (requestsInFlight c)) env in
      let ww := mkResponseWriter w http.StatusOK false in
      let '(ww, env) := next _ _ ww r env in
      let env := setRegistry (prometheus.GaugeDec (requestsInFlight c)) env in
      let duration := now env - start in
      let path := pathLabel r in
      let env :=
        setRegistry
          (prometheus.CounterInc (requestsTotal c)
             [Method r; path; strconv.Itoa (statusCode ww)]) env in
      let env :=
        setRegistry
          (prometheus.HistogramObserve (requestDuration c)
             [Method r; path] duration) env in
      (ResponseWriter ww, env).

Definition RecordError (c : Collector) (errorType : string) (env : Env) : Env :=
  setRegistry (prometheus.CounterInc (errorsTotal c) [errorType]) env.
End metrics.

(** ** package health *)

Module health.
(** [type Checker func(ctx context.Context) error]: a probe reads and may
    change the state of the process and of what it depends on. *)
Definition Checker : Type := context.Context → Env → error * Env.

Record CheckResult := mkCheckResult {
  Name_ : string;
  Status : string;
  Error : string
}.

#[global] Instance CheckResult_eq_dec : EqDecision CheckResult.
Proof. solve_decision. Defined.

Record HealthResponse := mkHealthResponse {
  Status_ : string;
  Checks : list CheckResult
}.

(** [namedChecker] wraps a checker with a name. *)
Record namedChecker := mkNamedChecker {
  name : string;
  checker : Checker
}.

Definition Name (n : namedChecker) : string := name n.
Definition Call (n : namedChecker) : Checker := λ ctx, checker n ctx.

(** The values a probe can be at run time, with their Go type.  The func
    type [Checker] has no methods; [*namedChecker] has [Name] and [Call]. *)
Inductive Dyn :=
  | DynChecker (c : Checker)            (* health.Checker *)
  | DynNamedChecker (n : namedChecker). (* *health.namedChecker *)

(** [v.(interface{ Name() string })] followed by [Name()]: succeeds for
    the types whose method set has [Name]. *)
Definition assertName (v : Dyn) : option string :=
  match v with
  | DynNamedChecker n => Some (Name n)
  | DynChecker _ => None
  end.

(** The constructors return the method value [checker.Call], a [Checker]. *)
Definition DatabaseChecker (PingContext : context.Context → Env → error * Env)
    : Checker :=
  Call (mkNamedChecker "database" (λ ctx, PingContext ctx)).

Definition CustomChecker (name : string) (checker : Checker) : Checker :=
  Call (mkNamedChecker name checker).

Definition RedisChecker (Ping : context.Context → Env → error * Env)
    : Checker :=
  Call (mkNamedChecker "redis" (λ ctx, Ping ctx)).

(** One iteration of the loop of [ReadinessHandler] over [checkers]. *)
Definition checkOne (ctx : context.Context)
    (st : list CheckResult * bool * Env) (checker : Checker)
    : list CheckResult * bool * Env :=
  let '(results, allOK, env) := st in
  let name :=
    match assertName (DynChecker checker) with
    | Some n => n
    | None => "dependency"
    end in
  let result := mkCheckResult name "ok" "" in
  let '(err, env) := checker ctx env in
  match err with
  | Some msg =>
      (results ++ [mkCheckResult (Name_ result) "error" msg], false, env)
  | None => (results ++ [result], allOK, env)
  end.

Section Handlers.
(** [encoding/json]: the bytes an [Encoder] writes for a response. *)
Variable Encode : HealthResponse → bytes.

Definition ReadinessHandler (checkers : list Checker) : Handler :=
  λ W _ w r env,
    let ctx := context.WithDeadline (Ctx r) (now env + 5 * time.Second) in
    let '(results, allOK, env) :=
      fold_left (checkOne ctx) checkers ([], true, env) in
    let response := mkHealthResponse "ok" results in
    let statusCode := http.StatusOK in
    let '(response, statusCode) :=
      if negb allOK
      then (mkHealthResponse "error" (Checks response),
            http.StatusServiceUnavailable)
      else (response, statusCode) in
    let w :=
      http.putHeader
        (http.Set_ (http.Header_ w) "Content-Type" "application/json") w in
    let w := http.WriteHeader statusCode w in
    let w := fst (http.Write (Encode response) w) in
    (w, env).

(** [encoding/json]: the bytes an [Encoder] writes for a
    [map[string]string]. *)
Variable EncodeMap : gmap string string → bytes.

Definition LivenessHandler : Handler :=
  λ W _ w r env,
    let w :=
      http.putHeader
        (http.Set_ (http.Header_ w) "Content-Type" "application/json") w in
    let w := http.WriteHeader http.StatusOK w in
    let w := fst (http.Write (EncodeMap {[ "status" := "ok" ]}) w) in
    (w, env).
End Handlers.

Section HTTPClient.
(** [net/http], as far as [HTTPChecker] uses it.
    [http.NewRequestWithContext(ctx, method, url, nil)] fails or builds the
    request its arguments determine; [(&http.Client{Timeout: t}).Do(req)]
    fails with an error or returns a response, of which only the status code
    is read. *)
Variable NewRequestWithContext : context.Context → string → string → error.
Variable Do :
  time.Duration → context.Context → string → string → Env →
  (string + Z) * Env.

Definition HTTPChecker (name url : string) : Checker :=
  Call (mkNamedChecker name
    (λ ctx env,
       match NewRequestWithContext ctx http.MethodGet url with
       | Some err => (Some err, env)
       | None =>
           let '(res, env) :=
             Do (3 * time.Second) ctx http.MethodGet url env in
           match res with
           | inl err => (Some err, env)
           | inr StatusCode =>
               if 400 <=? StatusCode
               then (Some http.ErrAbortHandler, env)
               else (None, env)
           end
       end)).
End HTTPClient.
End health.

(** ** package observability *)

Module observability.
(** [Stack] holds all observability components for a service. *)
Record Stack := mkStack {
  logger : logging.Logger;
  collector : metrics.Collector
}.

Definition NewStack (serviceName : string) (debug : bool) : Stack :=
  mkStack (logging.NewLogger serviceName debug)
          (metrics.NewCollector serviceName).

Definition Logger (s : Stack) : logging.Logger := logger s.
Definition Collector (s : Stack) : metrics.Collector := collector s.

Definition TraceMiddleware : Handler → Handler := trace.Middleware.
Definition MetricsMiddleware (s : Stack) : Handler → Handler :=
  metrics.Middleware (collector s).
Definition LoggingMiddleware (s : Stack) : Handler → Handler :=
  logging.Middleware (logger s).

Definition LivenessHandler (EncodeMap : gmap string string → bytes) : Handler :=
  health.LivenessHandler EncodeMap.
Definition ReadinessHandler (Encode : health.HealthResponse → bytes)
    (checkers : list health.Checker) : Handler :=
  health.ReadinessHandler Encode checkers.

Definition TraceIDFromContext : context.Context → string :=
  trace.TraceIDFromContext.
Definition RequestIDFromContext : context.Context → string :=
  trace.RequestIDFromContext.
Definition LoggerFromContext (ctx : context.Context) : zerolog.Logger :=
  logging.FromContext ctx.
End observability.

(** ** Vocabulary of the specification *)

(** The status that a call fixes when it is the first one on a wrapper. *)
Definition firstStatus (c : http.Call) : Z :=
  match c with
  | http.CallWriteHeader code => code
  | http.CallWrite _ => http.StatusOK
  end.

Definition isWrite (c : http.Call) : bool :=
  match c with
  | http.CallWrite _ => true
  | http.CallWriteHeader _ => false
  end.

(** What a wrapper makes of its first call on the wrapped writer. *)
Definition firstForwarded (c : http.Call) : list http.Call :=
  match c with
  | http.CallWriteHeader code => [http.CallWriteHeader code]
  | http.CallWrite b => [http.CallWriteHeader http.StatusOK; http.CallWrite b]
  end.

(** The calls a wrapper makes on the wrapped writer for the calls
    [c :: rest] it receives. *)
Definition forwarded (c : http.Call) (rest : list http.Call) : list http.Call :=
  firstForwarded c ++ filter (λ c, isWrite c = true) rest.

(** The status class of the specification: the status code divided by 100
    (Go's integer division), formatted in decimal. *)
Definition statusClass (status : Z) : string :=
  strconv.Itoa (Z.quot status 100).

(** The errors the probes return when they run one after the other, in
    registration order, each in the environment the previous one left. *)
Fixpoint outcomes (ctx : context.Context) (checkers : list health.Checker)
    (env : Env) : list error :=
  match checkers with
  | [] => []
  | checker :: checkers' =>
      let '(err, env') := checker ctx env in
      err :: outcomes ctx checkers' env'
  end.

(** The environment the probes leave behind. *)
Fixpoint afterChecks (ctx : context.Context) (checkers : list health.Checker)
    (env : Env) : Env :=
  match checkers with
  | [] => env
  | checker :: checkers' => afterChecks ctx checkers' (snd (checker ctx env))
  end.

(** Status and error text of the entry reported for a probe's outcome. *)
Definition reported (err : error) : string * string :=
  match err with
  | None => ("ok", "")
  | Some msg => ("error", msg)
  end.

(** The environment in which the logging middleware calls the downstream
    handler, and the request it hands down. *)
Definition loggingStarted (l : logging.Logger) (r : Request) (env : Env) : Env :=
  emit (logging.WithContext l (Ctx r)) zerolog.DebugLevel
    [zerolog.Str "http.method" (Method r);
     zerolog.Str "http.path" (URL_Path r);
     zerolog.Str "http.remote_addr" (RemoteAddr r)]
    "request started" env.

Definition loggingRequest (l : logging.Logger) (r : Request) : Request :=
  Request_WithContext r
    (context.WithValue (Ctx r) logging.loggerKey
       (context.VLogger (logging.WithContext l (Ctx r)))).

(** The entry the readiness handler builds for a probe's outcome. *)
Definition reportedEntry (err : error) : health.CheckResult :=
  health.mkCheckResult "dependency" (fst (reported err)) (snd (reported err)).

Definition isNil (err : error) : bool :=
  match err with None => true | Some _ => false end.

(** *** Sample inputs *)

(** A process at clock reading 0 whose random source yields the tokens
    [token-0], [token-1], ..., with nothing logged and nothing counted. *)
Definition env0 : Env :=
  mkEnv 0 (λ n, String.append "token-" (strconv.Itoa (Z.of_nat n))) []
        prometheus.empty.

(** A response writer that has received nothing. *)
Definition sink0 : http.Recorder := http.mkRecorder ∅ [].

Definition body0 : bytes := [Byte.x6f; Byte.x6b].

(** A request outside any router. *)
Definition request (method path : string) (header : http.Header) : Request :=
  mkRequest method path "10.0.0.1:4711" header context.Background.

(** A request that a chi router matched against [pattern]. *)
Definition routed (method path pattern : string) : Request :=
  mkRequest method path "10.0.0.1:4711" ∅
    (context.WithValue context.Background context.RouteCtxKey
       (context.VRouteCtx (mkRouteCtx pattern))).

(** A JSON encoder that is good enough to tell responses apart: it writes
    the top-level status only. *)
Definition encodeStatus (resp : health.HealthResponse) : bytes :=
  String.list_byte_of_string (health.Status_ resp).

(** Probes that succeed, and that fail with a message. *)
Definition probeOK : health.Checker := λ ctx env, (None, env).
Definition probeFail (msg : string) : health.Checker :=
  λ ctx env, (Some msg, env).

(** A response writer that behaves as the one of the [net/http] server: the
    first [WriteHeader] fixes the status, later ones are ignored, and a
    [Write] that comes first sends status 200. *)
Record Server := mkServer {
  srv_header : http.Header;
  srv_wroteHeader : bool;
  srv_status : Z;
  srv_body : bytes
}.

Definition Server_WriteHeader (code : Z) (w : Server) : Server :=
  if srv_wroteHeader w then w
  else mkServer (srv_header w) true code (srv_body w).

#[global] Instance Server_ResponseWriter : http.ResponseWriter Server := {|
  http.Header_ w := srv_header w;
  http.putHeader h w :=
    mkServer h (srv_wroteHeader w) (srv_status w) (srv_body w);
  http.Write b w :=
    let w := Server_WriteHeader http.StatusOK w in
    (mkServer (srv_header w) true (srv_status w) (srv_body w ++ b),
     (Z.of_nat (length b), None));
  http.WriteHeader := Server_WriteHeader;
  http.Header_putHeader := λ h w, eq_refl
|}.

Definition server0 : Server := mkServer ∅ false 0 [].

(** [n] requests [r] served one after the other by [h]. *)
Fixpoint serveN (h : Handler) (n : nat) (W : Type)
    (HW : http.ResponseWriter W) (w : W) (r : Request) (env : Env) : W * Env :=
  match n with
  | O => (w, env)
  | S n' =>
      let '(w', env') := h W HW w r env in
      serveN h n' W HW w' r env'
  end.

(** A context in which no logger was attached. *)
Fixpoint noLogger (ctx : context.Context) : Prop :=
  match ctx with
  | context.Background => True
  | context.WithValue parent key _ => key ≠ logging.loggerKey ∧ noLogger parent
  | context.WithDeadline parent _ => noLogger parent
  end.

(** An HTTP client for which every URL is well formed and answers with the
    status [status]. *)
Definition requestOK : context.Context → string → string → error :=
  λ _ _ _, None.
Definition answers (status : Z)
    : time.Duration → context.Context → string → string → Env →
      (string + Z) * Env :=
  λ _ _ _ _ env, (inr status, env).

(** A handler that answers with the trace identifier it finds in its
    request context, and takes [d] to do so. *)
Definition echoTraceID (d : time.Duration) : Handler :=
  λ W _ w r env,
    (fst (http.Write
            (String.list_byte_of_string (trace.TraceIDFromContext (Ctx r))) w),
     elapse d env).

(** Membership of a listed element. *)
Ltac in_list :=
  solve [repeat first [apply list_elem_of_here | apply list_elem_of_further]].

(** ** The response wrappers *)

Section Wrappers.
Context {W : Type} `{HW : http.ResponseWriter W}.

Lemma logging_perform_written (c : http.Call) (rw : logging.responseWriter W) :
  logging.written rw = true →
  http.perform c rw =
    logging.mkResponseWriter
      (if isWrite c then http.perform c (logging.ResponseWriter rw)
       else logging.ResponseWriter rw)
      (logging.statusCode rw) true.
Proof.
  destruct rw as [u s wr]; simpl; intros ->.
  destruct c as [code | b]; simpl.
  - reflexivity.
  - unfold logging.Write; simpl. by destruct (http.Write b u).
Qed.

Lemma logging_performAll_written (cs : list http.Call)
    (rw : logging.responseWriter W) :
  logging.written rw = true →
  http.performAll cs rw =
    logging.mkResponseWriter
      (http.performAll (filter (λ c, isWrite c = true) cs)
                       (logging.ResponseWriter rw))
      (logging.statusCode rw) true.
Proof.
  revert rw. induction cs as [| c cs IH]; intros rw Hw.
  - destruct rw as [u s wr]; simpl in *. by subst.
  - unfold http.performAll in *; simpl fold_left.
    rewrite (logging_perform_written c rw Hw), IH by reflexivity.
    destruct c; simpl; reflexivity.
Qed.

Lemma logging_perform_first (c : http.Call) (w : W) (s0 : Z) :
  http.perform c (logging.mkResponseWriter w s0 false) =
    logging.mkResponseWriter (http.performAll (firstForwarded c) w)
                             (firstStatus c) true.
Proof.
  destruct c as [code | b]; simpl; [reflexivity |].
  unfold logging.Write; simpl.
  by destruct (http.Write b (http.WriteHeader http.StatusOK w)).
Qed.

Lemma logging_performAll_first (c : http.Call) (rest : list http.Call)
    (w : W) (s0 : Z) :
  http.performAll (c :: rest) (logging.mkResponseWriter w s0 false) =
    logging.mkResponseWriter (http.performAll (forwarded c rest) w)
                             (firstStatus c) true.
Proof.
  unfold http.performAll at 1; simpl fold_left.
  rewrite logging_perform_first.
  fold (http.performAll rest
          (logging.mkResponseWriter (http.performAll (firstForwarded c) w)
                                    (firstStatus c) true)).
  rewrite logging_performAll_written by reflexivity.
  simpl. unfold forwarded, http.performAll. by rewrite fold_left_app.
Qed.

Lemma metrics_perform_written (c : http.Call) (rw : metrics.responseWriter W) :
  metrics.written rw = true →
  http.perform c rw =
    metrics.mkResponseWriter
      (if isWrite c then http.perform c (metrics.ResponseWriter rw)
       else metrics.ResponseWriter rw)
      (metrics.statusCode rw) true.
Proof.
  destruct rw as [u s wr]; simpl; intros ->.
  destruct c as [code | b]; simpl.
  - reflexivity.
  - unfold metrics.Write; simpl. by destruct (http.Write b u).
Qed.

Lemma metrics_performAll_written (cs : list http.Call)
    (rw : metrics.responseWriter W) :
  metrics.written rw = true →
  http.performAll cs rw =
    metrics.mkResponseWriter
      (http.performAll (filter (λ c, isWrite c = true) cs)
                       (metrics.ResponseWriter rw))
      (metrics.statusCode rw) true.
Proof.
  revert rw. induction cs as [| c cs IH]; intros rw Hw.
  - destruct rw as [u s wr]; simpl in *. by subst.
  - unfold http.performAll in *; simpl fold_left.
    rewrite (metrics_perform_written c rw Hw), IH by reflexivity.
    destruct c; simpl; reflexivity.
Qed.

Lemma metrics_perform_first (c : http.Call) (w : W) (s0 : Z) :
  http.perform c (metrics.mkResponseWriter w s0 false) =
    metrics.mkResponseWriter (http.performAll (firstForwarded c) w)
                             (firstStatus c) true.
Proof.
  destruct c as [code | b]; simpl; [reflexivity |].
  unfold metrics.Write; simpl.
  by destruct (http.Write b (http.WriteHeader http.StatusOK w)).
Qed.

Lemma metrics_performAll_first (c : http.Call) (rest : list http.Call)
    (w : W) (s0 : Z) :
  http.performAll (c :: rest) (metrics.mkResponseWriter w s0 false) =
    metrics.mkResponseWriter (http.performAll (forwarded c rest) w)
                             (firstStatus c) true.
Proof.
  unfold http.performAll at 1; simpl fold_left.
  rewrite metrics_perform_first.
  fold (http.performAll rest
          (metrics.mkResponseWriter (http.performAll (firstForwarded c) w)
                                    (firstStatus c) true)).
  rewrite metrics_performAll_written by reflexivity.
  simpl. unfold forwarded, http.performAll. by rewrite fold_left_app.
Qed.

(** C1. On either wrapper, whatever status it starts from, the status
    recorded after the calls [c :: rest] is the one fixed by the first call
    [c]: the code of a [WriteHeader], 200 for a [Write]; the calls of [rest]
    do not change it. *)
Theorem C1_first_call_fixes_status (w : W) (s0 : Z) (c : http.Call)
    (rest : list http.Call) :
  logging.statusCode
    (http.performAll (c :: rest) (logging.mkResponseWriter w s0 false))
    = firstStatus c
  ∧ metrics.statusCode
      (http.performAll (c :: rest) (metrics.mkResponseWriter w s0 false))
    = firstStatus c.
Proof.
  by rewrite logging_performAll_first, metrics_performAll_first.
Qed.

(** C2, as amended.  The wrapped writer receives the first call (a [Write]
    that comes first is preceded by [WriteHeader(200)]) and, of the later
    calls, every [Write] unchanged and in order; a later [WriteHeader] is
    not forwarded. *)
Theorem C2_writes_forwarded_later_headers_dropped (w : W) (s0 : Z)
    (c : http.Call) (rest : list http.Call) :
  logging.ResponseWriter
    (http.performAll (c :: rest) (logging.mkResponseWriter w s0 false))
    = http.performAll (forwarded c rest) w
  ∧ metrics.ResponseWriter
      (http.performAll (c :: rest) (metrics.mkResponseWriter w s0 false))
    = http.performAll (forwarded c rest) w.
Proof.
  by rewrite logging_performAll_first, metrics_performAll_first.
Qed.
End Wrappers.

(** C2, counterexample.  After [WriteHeader(201)], a body write and
    [WriteHeader(404)], the wrapped writer has received the first two calls
    only: the third one was not passed through, by either wrapper. *)
Lemma C2_later_WriteHeader_not_passed_through :
  let calls :=
    [http.CallWriteHeader 201; http.CallWrite body0; http.CallWriteHeader 404] in
  (http.CallWriteHeader 404 ∉
     http.rec_calls
       (logging.ResponseWriter
          (http.performAll calls (logging.mkResponseWriter sink0 0 false))))
  ∧ http.CallWriteHeader 404 ∉
      http.rec_calls
        (metrics.ResponseWriter
           (http.performAll calls
              (metrics.mkResponseWriter sink0 http.StatusOK false))).
Proof.
  split; cbn; rewrite !elem_of_cons, elem_of_nil; intros [? | [? | ?]]; done.
Qed.

(** ** strconv.Itoa *)

Lemma append_cons (a : Ascii.ascii) (s t : string) :
  String.append (String a s) t = String a (String.append s t).
Proof. reflexivity. Qed.

Lemma append_assoc (s t u : string) :
  String.append (String.append s t) u = String.append s (String.append t u).
Proof.
  induction s as [| a s IH]; [reflexivity |].
  by rewrite !append_cons, IH.
Qed.

(** The digits are put in front of the accumulator. *)
Lemma digits_acc (fuel : nat) :
  ∀ (n : Z) (acc : string),
    strconv.digits fuel n acc =
      String.append (strconv.digits fuel n EmptyString) acc.
Proof.
  induction fuel as [| fuel IH]; intros n acc; [reflexivity |].
  cbn [strconv.digits]. destruct (n / 10 =? 0); [reflexivity |].
  rewrite (IH _ (String _ acc)), (IH _ (String _ EmptyString)).
  by rewrite append_assoc.
Qed.

(** Any fuel that covers the binary length of the number gives the same
    digits: the fuel [Itoa] passes never runs out. *)
Lemma digits_fuel (f1 : nat) :
  ∀ (f2 : nat) (n : Z) (acc : string),
    (1 ≤ f1)%nat → (1 ≤ f2)%nat →
    0 ≤ n < 2 ^ Z.of_nat f1 → n < 2 ^ Z.of_nat f2 →
    strconv.digits f1 n acc = strconv.digits f2 n acc.
Proof.
  induction f1 as [| f1 IH]; intros f2 n acc Hf1 Hf2 Hn1 Hn2; [lia |].
  destruct f2 as [| f2]; [lia |].
  cbn [strconv.digits]. destruct (Z.eqb_spec (n / 10) 0) as [| Hq]; [done |].
  assert (10 ≤ n).
  { destruct (Z.lt_ge_cases n 10); [| done].
    rewrite Z.div_small in Hq by lia. done. }
  rewrite Nat2Z.inj_succ, Z.pow_succ_r in Hn1, Hn2 by lia.
  assert (1 ≤ f1)%nat.
  { destruct f1; [simpl in Hn1; lia | lia]. }
  assert (1 ≤ f2)%nat.
  { destruct f2; [simpl in Hn2; lia | lia]. }
  apply IH; try done.
  - split; [apply Z.div_pos; lia |].
    apply Z.div_lt_upper_bound; lia.
  - apply Z.div_lt_upper_bound; lia.
Qed.

(** The decimal text of a number of one digit, and of a longer one. *)
Lemma Itoa_digit (n : Z) :
  0 ≤ n < 10 → strconv.Itoa n = String (strconv.digit n) EmptyString.
Proof.
  intros Hn. unfold strconv.Itoa.
  destruct (Z.ltb_spec n 0); [lia |].
  cbn [strconv.digits].
  by rewrite Z.div_small, Z.mod_small by lia.
Qed.

Lemma Itoa_step (n : Z) :
  10 ≤ n →
  strconv.Itoa n =
    String.append (strconv.Itoa (n / 10))
                  (String (strconv.digit (n mod 10)) EmptyString).
Proof.
  intros Hn. unfold strconv.Itoa.
  assert (0 < n / 10) by (apply Z.div_str_pos; lia).
  destruct (Z.ltb_spec n 0); [lia |].
  destruct (Z.ltb_spec (n / 10) 0); [lia |].
  remember (S (Z.to_nat (Z.log2 (n / 10)))) as f2 eqn:Hf2.
  cbn [strconv.digits].
  destruct (Z.eqb_spec (n / 10) 0); [lia |].
  rewrite digits_acc. f_equal. subst f2.
  pose proof (Z.log2_spec n ltac:(lia)) as [Hlo Hhi].
  pose proof (Z.log2_spec (n / 10) ltac:(lia)) as [Hlo' Hhi'].
  pose proof (Z.log2_nonneg (n / 10)).
  assert (3 ≤ Z.log2 n) by (apply Z.log2_le_pow2; simpl; lia).
  rewrite Z.pow_succ_r in Hhi by lia.
  apply digits_fuel.
  - lia.
  - lia.
  - rewrite Z2Nat.id by lia. split; [lia |].
    apply Z.div_lt_upper_bound; lia.
  - rewrite Nat2Z.inj_succ, Z2Nat.id by lia. exact Hhi'.
Qed.

Lemma digit_inj (a b : Z) :
  0 ≤ a < 10 → 0 ≤ b < 10 → strconv.digit a = strconv.digit b → a = b.
Proof.
  intros Ha Hb Heq. apply (f_equal Ascii.nat_of_ascii) in Heq.
  unfold strconv.digit in Heq.
  rewrite !Ascii.nat_ascii_embedding in Heq by lia. lia.
Qed.

Lemma digit_not_minus (a : Z) :
  0 ≤ a < 10 → strconv.digit a ≠ Ascii.ascii_of_nat 45.
Proof.
  intros Ha Heq. apply (f_equal Ascii.nat_of_ascii) in Heq.
  unfold strconv.digit in Heq.
  rewrite !Ascii.nat_ascii_embedding in Heq by lia. lia.
Qed.

Lemma append_last_inj (s t : string) (a b : Ascii.ascii) :
  String.append s (String a EmptyString) = String.append t (String b EmptyString) →
  s = t ∧ a = b.
Proof.
  revert t. induction s as [| c s IH]; intros [| d t] Heq.
  - by injection Heq as ->.
  - rewrite append_cons in Heq. injection Heq as _ Heq. by destruct t.
  - rewrite append_cons in Heq. injection Heq as _ Heq. by destruct s.
  - rewrite !append_cons in Heq. injection Heq as -> Heq.
    apply IH in Heq as [-> ->]. done.
Qed.

(** The text of a non-negative number starts with a digit. *)
Lemma Itoa_nonneg_head (n : Z) :
  0 ≤ n → ∃ d s, 0 ≤ d < 10 ∧ strconv.Itoa n = String (strconv.digit d) s.
Proof.
  intros Hn. generalize Hn. pattern n. apply Z_lt_induction; [| exact Hn].
  clear n Hn. intros n IH Hn.
  destruct (Z.lt_ge_cases n 10) as [Hlt | Hge].
  - exists n, EmptyString. split; [lia |]. by apply Itoa_digit.
  - destruct (IH (n / 10)) as (d & s & Hd & Heq).
    { split; [apply Z.div_pos; lia | apply Z.div_lt; lia]. }
    { apply Z.div_pos; lia. }
    exists d. eexists. split; [done |].
    rewrite Itoa_step, Heq by done. apply append_cons.
Qed.

Lemma Itoa_nonneg_inj (n : Z) :
  0 ≤ n → ∀ m, 0 ≤ m → strconv.Itoa n = strconv.Itoa m → n = m.
Proof.
  intros Hn. generalize Hn. pattern n. apply Z_lt_induction; [| exact Hn].
  clear n Hn. intros n IH Hn m Hm Heq.
  pose proof (Z.mod_pos_bound n 10 ltac:(lia)).
  pose proof (Z.mod_pos_bound m 10 ltac:(lia)).
  destruct (Z.lt_ge_cases n 10) as [Hn10 | Hn10];
    destruct (Z.lt_ge_cases m 10) as [Hm10 | Hm10].
  - rewrite !Itoa_digit in Heq by lia. injection Heq as Heq.
    apply digit_inj; [lia | lia | done].
  - rewrite Itoa_digit, (Itoa_step m) in Heq by lia.
    change (String (strconv.digit n) EmptyString)
      with (String.append EmptyString (String (strconv.digit n) EmptyString))
      in Heq.
    apply append_last_inj in Heq as [Heq _].
    destruct (Itoa_nonneg_head (m / 10)) as (d & s & _ & Hhead).
    { apply Z.div_pos; lia. }
    rewrite Hhead in Heq. done.
  - rewrite (Itoa_step n), (Itoa_digit m) in Heq by lia.
    change (String (strconv.digit m) EmptyString)
      with (String.append EmptyString (String (strconv.digit m) EmptyString))
      in Heq.
    apply append_last_inj in Heq as [Heq _].
    destruct (Itoa_nonneg_head (n / 10)) as (d & s & _ & Hhead).
    { apply Z.div_pos; lia. }
    rewrite Hhead in Heq. done.
  - rewrite (Itoa_step n), (Itoa_step m) in Heq by lia.
    apply append_last_inj in Heq as [Hq Hr].
    apply IH in Hq.
    + apply digit_inj in Hr; [| lia | lia].
      rewrite (Z.div_mod n 10), (Z.div_mod m 10) by lia. lia.
    + split; [apply Z.div_pos; lia | apply Z.div_lt; lia].
    + apply Z.div_pos; lia.
    + apply Z.div_pos; lia.
Qed.

Lemma Itoa_neg (n : Z) :
  n < 0 →
  strconv.Itoa n = String (Ascii.ascii_of_nat 45) (strconv.Itoa (- n)).
Proof.
  intros Hn. unfold strconv.Itoa.
  destruct (Z.ltb_spec n 0); [| lia].
  destruct (Z.ltb_spec (- n) 0); [lia |].
  reflexivity.
Qed.

(** Two numbers with the same decimal text are equal. *)
Lemma Itoa_inj (n m : Z) : strconv.Itoa n = strconv.Itoa m → n = m.
Proof.
  intros Heq.
  destruct (Z.lt_ge_cases n 0) as [Hn | Hn];
    destruct (Z.lt_ge_cases m 0) as [Hm | Hm].
  - rewrite (Itoa_neg n), (Itoa_neg m) in Heq by done. injection Heq as Heq.
    apply Itoa_nonneg_inj in Heq; lia.
  - rewrite (Itoa_neg n) in Heq by done.
    destruct (Itoa_nonneg_head m Hm) as (d & s & Hd & Hhead).
    rewrite Hhead in Heq. injection Heq as Heq _.
    symmetry in Heq. by apply digit_not_minus in Heq.
  - rewrite (Itoa_neg m) in Heq by done.
    destruct (Itoa_nonneg_head n Hn) as (d & s & Hd & Hhead).
    rewrite Hhead in Heq. injection Heq as Heq _.
    by apply digit_not_minus in Heq.
  - by apply Itoa_nonneg_inj.
Qed.

(** ** The metrics middleware *)

Lemma counterValue_CounterInc (name : string) (lvs lvs' : list string)
    (reg : prometheus.Registry) :
  prometheus.counterValue name lvs (prometheus.CounterInc name lvs' reg) =
    prometheus.counterValue name lvs reg + (if decide (lvs = lvs') then 1 else 0).
Proof.
  unfold prometheus.counterValue, prometheus.CounterInc; simpl.
  rewrite lookup_insert.
  destruct (decide (lvs = lvs')) as [-> | Hne].
  - by rewrite decide_True.
  - rewrite decide_False by congruence. lia.
Qed.

Lemma observations_HistogramObserve (name : string) (lvs lvs' : list string)
    (d : time.Duration) (reg : prometheus.Registry) :
  prometheus.observations name lvs (prometheus.HistogramObserve name lvs' d reg) =
    prometheus.observations name lvs reg ++ (if decide (lvs = lvs') then [d] else []).
Proof.
  unfold prometheus.observations, prometheus.HistogramObserve; simpl.
  rewrite lookup_insert.
  destruct (decide (lvs = lvs')) as [-> | Hne].
  - by rewrite decide_True.
  - rewrite decide_False by congruence. by rewrite app_nil_r.
Qed.

Lemma gaugeValue_GaugeInc (name : string) (reg : prometheus.Registry) :
  prometheus.gaugeValue name (prometheus.GaugeInc name reg) =
    prometheus.gaugeValue name reg + 1.
Proof.
  unfold prometheus.gaugeValue, prometheus.GaugeInc; simpl.
  by rewrite lookup_insert_eq.
Qed.

Lemma gaugeValue_GaugeDec (name : string) (reg : prometheus.Registry) :
  prometheus.gaugeValue name (prometheus.GaugeDec name reg) =
    prometheus.gaugeValue name reg - 1.
Proof.
  unfold prometheus.gaugeValue, prometheus.GaugeDec; simpl.
  by rewrite lookup_insert_eq.
Qed.

Lemma counterValue_HistogramObserve (name name' : string)
    (lvs lvs' : list string) (d : time.Duration) (reg : prometheus.Registry) :
  prometheus.counterValue name lvs
    (prometheus.HistogramObserve name' lvs' d reg) =
    prometheus.counterValue name lvs reg.
Proof. reflexivity. Qed.

Lemma counterValue_GaugeDec (name name' : string) (lvs : list string)
    (reg : prometheus.Registry) :
  prometheus.counterValue name lvs (prometheus.GaugeDec name' reg) =
    prometheus.counterValue name lvs reg.
Proof. reflexivity. Qed.

(** What the middleware does for a request that is not for [/metrics], in
    terms of what the downstream handler returned. *)
Lemma metrics_Middleware_unfold (c : metrics.Collector) (next : Handler)
    (W : Type) (HW : http.ResponseWriter W) (w : W) (r : Request) (env : Env) :
  URL_Path r ≠ "/metrics" →
  metrics.Middleware c next W HW w r env =
    let res :=
      next _ _ (metrics.mkResponseWriter w http.StatusOK false) r
        (setRegistry (prometheus.GaugeInc (metrics.requestsInFlight c)) env) in
    (metrics.ResponseWriter (fst res),
     setRegistry
       (prometheus.HistogramObserve (metrics.requestDuration c)
          [Method r; metrics.pathLabel r] (now (snd res) - now env))
       (setRegistry
          (prometheus.CounterInc (metrics.requestsTotal c)
             [Method r; metrics.pathLabel r;
              strconv.Itoa (metrics.statusCode (fst res))])
          (setRegistry (prometheus.GaugeDec (metrics.requestsInFlight c))
             (snd res)))).
Proof.
  intros Hpath. unfold metrics.Middleware.
  destruct (String.eqb_spec (URL_Path r) "/metrics") as [? | _]; [done |].
  simpl. by destruct (next _ _ _ r _) as [ww env'].
Qed.

(** The text of a three-digit status code is its class followed by the
    two other digits. *)
Lemma Itoa_three_digits (s : Z) :
  100 ≤ s ≤ 999 →
  strconv.Itoa s =
    String.append (statusClass s)
      (String (strconv.digit (s / 10 mod 10))
         (String (strconv.digit (s mod 10)) EmptyString))
  ∧ statusClass s = String (strconv.digit (s / 100)) EmptyString.
Proof.
  intros Hs.
  assert (Hall : Forall (λ s,
            strconv.Itoa s =
              String.append (statusClass s)
                (String (strconv.digit (s / 10 mod 10))
                   (String (strconv.digit (s mod 10)) EmptyString))
            ∧ statusClass s = String (strconv.digit (s / 100)) EmptyString)
          (seqZ 100 900)).
  { apply (bool_decide_unpack _). vm_compute. exact I. }
  rewrite Forall_forall in Hall. apply Hall.
  apply elem_of_seqZ. lia.
Qed.

(** C3, counterexample.  A request answered with 404 is counted under the
    status label "404"; the series labelled with the status class "4" is
    not incremented. *)
Lemma C3_label_404_not_class_4 :
  let env' :=
    snd (metrics.Middleware (metrics.NewCollector "svc")
           (scripted [http.CallWriteHeader 404] id)
           _ _ sink0 (request "GET" "/missing" ∅) env0) in
  statusClass 404 = "4"
  ∧ prometheus.counterValue "svc_http_requests_total"
      ["GET"; "/missing"; statusClass 404] (registry env') = 0
  ∧ prometheus.counterValue "svc_http_requests_total"
      ["GET"; "/missing"; "404"] (registry env') = 1.
Proof. vm_compute. repeat split. Qed.

(** C3, as amended.  For a request that is not for [/metrics], the
    middleware adds one to exactly one series of the request counter, the
    one whose status label is the decimal text of the full status code
    captured by the wrapper; for a three-digit code that text is the status
    class followed by the two other digits. *)
Theorem C3_status_label_is_full_code (c : metrics.Collector) (next : Handler)
    (W : Type) (HW : http.ResponseWriter W) (w : W) (r : Request) (env : Env) :
  URL_Path r ≠ "/metrics" →
  let res :=
    next _ _ (metrics.mkResponseWriter w http.StatusOK false) r
      (setRegistry (prometheus.GaugeInc (metrics.requestsInFlight c)) env) in
  let s := metrics.statusCode (fst res) in
  let final := registry (snd (metrics.Middleware c next W HW w r env)) in
  (∀ lvs,
     prometheus.counterValue (metrics.requestsTotal c) lvs final =
       prometheus.counterValue (metrics.requestsTotal c) lvs (registry (snd res))
       + (if decide (lvs = [Method r; metrics.pathLabel r; strconv.Itoa s])
          then 1 else 0))
  ∧ (100 ≤ s ≤ 999 →
     strconv.Itoa s =
       String.append (statusClass s)
         (String (strconv.digit (s / 10 mod 10))
            (String (strconv.digit (s mod 10)) EmptyString))).
Proof.
  intros Hpath res s final. split.
  - intros lvs. subst final.
    rewrite metrics_Middleware_unfold by done. cbn zeta. fold res.
    cbn [snd setRegistry registry].
    rewrite counterValue_HistogramObserve, counterValue_CounterInc.
    by rewrite counterValue_GaugeDec.
  - intros Hs. by apply Itoa_three_digits.
Qed.

(** C3, witness: a request for [/users/7], matched as [/users/{id}] and
    answered with 503. *)
Lemma C3_status_label_is_full_code_witness :
  let r := routed "GET" "/users/7" "/users/{id}" in
  let c := metrics.NewCollector "svc" in
  let final :=
    registry (snd (metrics.Middleware c (scripted [http.CallWriteHeader 503] id)
                     _ _ sink0 r env0)) in
  URL_Path r ≠ "/metrics"
  ∧ prometheus.counterValue (metrics.requestsTotal c)
      ["GET"; "/users/{id}"; "503"] final = 1.
Proof.
  intros r c final. split; [discriminate |].
  pose proof (C3_status_label_is_full_code c
                (scripted [http.CallWriteHeader 503] id) _ _ sink0 r env0
                ltac:(discriminate)) as [Hcount _].
  cbv zeta in Hcount. exact (Hcount ["GET"; "/users/{id}"; "503"]).
Defined.

(** C9, counterexample.  A request for [/users/42] that carries no routing
    context is counted under the raw path, numeric segment included. *)
Lemma C9_raw_path_used_as_label :
  let c := metrics.NewCollector "svc" in
  let env' :=
    snd (metrics.Middleware c (scripted [http.CallWrite body0] id)
           _ _ sink0 (request "GET" "/users/42" ∅) env0) in
  prometheus.counterValue (metrics.requestsTotal c)
    ["GET"; "/users/42"; "200"] (registry env') = 1
  ∧ prometheus.observations (metrics.requestDuration c)
      ["GET"; "/users/42"] (registry env') = [0].
Proof. vm_compute. split; reflexivity. Qed.

(** C9, as amended.  A request for [/metrics] is handed to the downstream
    handler and nothing else happens.  For any other request the counter
    and the histogram get one sample each, under a path label that is the
    route pattern when the request has a routing context with a non-empty
    pattern, and the raw URL path when it has no routing context or the
    pattern is empty. *)
Theorem C9_path_label_and_metrics_exclusion (c : metrics.Collector)
    (next : Handler) (W : Type) (HW : http.ResponseWriter W) (w : W)
    (r : Request) (env : Env) :
  (URL_Path r = "/metrics" →
   metrics.Middleware c next W HW w r env = next W HW w r env)
  ∧ (URL_Path r ≠ "/metrics" →
     let res :=
       next _ _ (metrics.mkResponseWriter w http.StatusOK false) r
         (setRegistry (prometheus.GaugeInc (metrics.requestsInFlight c)) env) in
     let final := registry (snd (metrics.Middleware c next W HW w r env)) in
     ∃ path,
       (∀ rctx, chi.RouteContext (Ctx r) = Some rctx →
                RoutePattern rctx ≠ "" → path = RoutePattern rctx)
       ∧ (∀ rctx, chi.RouteContext (Ctx r) = Some rctx →
                  RoutePattern rctx = "" → path = URL_Path r)
       ∧ (chi.RouteContext (Ctx r) = None → path = URL_Path r)
       ∧ (∀ lvs,
            prometheus.counterValue (metrics.requestsTotal c) lvs final =
              prometheus.counterValue (metrics.requestsTotal c) lvs
                (registry (snd res))
              + (if decide (lvs = [Method r; path;
                                   strconv.Itoa (metrics.statusCode (fst res))])
                 then 1 else 0))
       ∧ (∀ lvs,
            prometheus.observations (metrics.requestDuration c) lvs final =
              prometheus.observations (metrics.requestDuration c) lvs
                (registry (snd res))
              ++ (if decide (lvs = [Method r; path])
                  then [now (snd res) - now env] else []))).
Proof.
  split.
  - intros Hpath. unfold metrics.Middleware. by rewrite Hpath.
  - intros Hpath res final. exists (metrics.pathLabel r).
    repeat split.
    + intros rctx Hctx Hpat. unfold metrics.pathLabel. rewrite Hctx.
      by destruct (String.eqb_spec (RoutePattern rctx) "").
    + intros rctx Hctx Hpat. unfold metrics.pathLabel. rewrite Hctx.
      by destruct (String.eqb_spec (RoutePattern rctx) "").
    + intros Hctx. unfold metrics.pathLabel. by rewrite Hctx.
    + intros lvs. subst final.
      rewrite metrics_Middleware_unfold by done. cbn zeta. fold res.
      cbn [snd setRegistry registry].
      rewrite counterValue_HistogramObserve, counterValue_CounterInc.
      by rewrite counterValue_GaugeDec.
    + intros lvs. subst final.
      rewrite metrics_Middleware_unfold by done. cbn zeta. fold res.
      cbn [snd setRegistry registry].
      by rewrite observations_HistogramObserve.
Qed.

(** C9, witness: a scrape of [/metrics] leaves the registry as it was. *)
Lemma C9_path_label_and_metrics_exclusion_witness :
  let r := request "GET" "/metrics" ∅ in
  URL_Path r = "/metrics"
  ∧ registry
      (snd (metrics.Middleware (metrics.NewCollector "svc")
              (scripted [http.CallWrite body0] id) _ _ sink0 r env0))
    = registry env0.
Proof.
  intros r. split; [reflexivity |].
  rewrite (proj1 (C9_path_label_and_metrics_exclusion
                    (metrics.NewCollector "svc")
                    (scripted [http.CallWrite body0] id) _ _ sink0 r env0)
             eq_refl).
  reflexivity.
Defined.

(** The in-flight gauge is back at the value the downstream handler left
    it at, less the one added on entry. *)
Lemma metrics_Middleware_gauge (c : metrics.Collector) (next : Handler)
    (W : Type) (HW : http.ResponseWriter W) (w : W) (r : Request) (env : Env) :
  URL_Path r ≠ "/metrics" →
  let res :=
    next _ _ (metrics.mkResponseWriter w http.StatusOK false) r
      (setRegistry (prometheus.GaugeInc (metrics.requestsInFlight c)) env) in
  prometheus.gaugeValue (metrics.requestsInFlight c)
    (registry (snd (metrics.Middleware c next W HW w r env))) =
    prometheus.gaugeValue (metrics.requestsInFlight c) (registry (snd res)) - 1.
Proof.
  intros Hpath res.
  rewrite metrics_Middleware_unfold by done. cbn zeta. fold res.
  cbn [snd setRegistry registry].
  unfold prometheus.HistogramObserve, prometheus.CounterInc.
  unfold prometheus.gaugeValue at 1. cbn [prometheus.gauges].
  apply gaugeValue_GaugeDec.
Qed.

(** ** The logging middleware *)

Lemma logging_WithContext_level (l : logging.Logger) (ctx : context.Context) :
  zerolog.level (logging.WithContext l ctx) = zerolog.level (logging.Logger_ l).
Proof.
  unfold logging.WithContext.
  repeat (match goal with
          | |- context [match ?x with _ => _ end] => destruct x
          end; simpl); reflexivity.
Qed.

Lemma emit_should (l : zerolog.Logger) (lvl : zerolog.Level)
    (fields : list zerolog.Field) (msg : string) (env : Env) :
  zerolog.should l lvl = true →
  emit l lvl fields msg env =
    mkEnv (now env) (tokens env)
      (stdout env ++
         [zerolog.mkEntry lvl
            (if zerolog.timestamp l then Some (now env) else None)
            (zerolog.context l ++ fields) msg])
      (registry env).
Proof. intros Hs. unfold emit, zerolog.line. by rewrite Hs. Qed.

Lemma emit_now (l : zerolog.Logger) (lvl : zerolog.Level)
    (fields : list zerolog.Field) (msg : string) (env : Env) :
  now (emit l lvl fields msg env) = now env.
Proof. unfold emit. by destruct (zerolog.line _ _ _ _ _). Qed.

Lemma NewLogger_should (svc : string) (debug : bool) (ctx : context.Context)
    (status : Z) :
  zerolog.should (logging.WithContext (logging.NewLogger svc debug) ctx)
                 (logging.completionLevel status) = true.
Proof.
  unfold zerolog.should. rewrite logging_WithContext_level.
  unfold logging.completionLevel.
  destruct debug, (500 <=? status), (400 <=? status); reflexivity.
Qed.

Lemma logging_Middleware_unfold (l : logging.Logger) (next : Handler)
    (W : Type) (HW : http.ResponseWriter W) (w : W) (r : Request) (env : Env) :
  logging.Middleware l next W HW w r env =
    let res :=
      next _ _ (logging.mkResponseWriter w 0 false) (loggingRequest l r)
        (loggingStarted l r env) in
    (logging.ResponseWriter (fst res),
     emit (logging.WithContext l (Ctx r))
       (logging.completionLevel (logging.statusCode (fst res)))
       [zerolog.Str "http.method" (Method r);
        zerolog.Str "http.path" (URL_Path r);
        zerolog.Int "http.status" (logging.statusCode (fst res));
        zerolog.Int64 "duration_ms"
          (time.Milliseconds (now (snd res) - now env))]
       "request completed" (snd res)).
Proof.
  unfold logging.Middleware, loggingRequest, loggingStarted. cbn zeta.
  by destruct (next _ _ _ _ _) as [ww env'].
Qed.

(** C8.  With a logger made by [NewLogger], the middleware writes the
    completion event after whatever the downstream handler wrote.  Its
    level is error for a captured status of 500 or more, warning from 400
    to 499 and info below 400; it carries the method, the path, the captured
    status and, the clock not having gone backwards, the elapsed time in
    whole milliseconds, rounded down. *)
Theorem C8_completion_event (svc : string) (debug : bool) (next : Handler)
    (W : Type) (HW : http.ResponseWriter W) (w : W) (r : Request) (env : Env) :
  let l := logging.NewLogger svc debug in
  let res :=
    next _ _ (logging.mkResponseWriter w 0 false) (loggingRequest l r)
      (loggingStarted l r env) in
  let s := logging.statusCode (fst res) in
  let d := now (snd res) - now env in
  0 ≤ d →
  ∃ e ms,
    stdout (snd (logging.Middleware l next W HW w r env)) =
      stdout (snd res) ++ [e]
    ∧ (500 ≤ s → zerolog.entry_level e = zerolog.ErrorLevel)
    ∧ (400 ≤ s < 500 → zerolog.entry_level e = zerolog.WarnLevel)
    ∧ (s < 400 → zerolog.entry_level e = zerolog.InfoLevel)
    ∧ zerolog.entry_message e = "request completed"
    ∧ zerolog.entry_fields e =
        zerolog.context (logging.WithContext l (Ctx r)) ++
        [zerolog.Str "http.method" (Method r);
         zerolog.Str "http.path" (URL_Path r);
         zerolog.Int "http.status" s;
         zerolog.Int64 "duration_ms" ms]
    ∧ 1000000 * ms ≤ d < 1000000 * ms + 1000000.
Proof.
  intros l res s d Hd.
  exists (zerolog.mkEntry (logging.completionLevel s)
            (if zerolog.timestamp (logging.WithContext l (Ctx r))
             then Some (now (snd res)) else None)
            (zerolog.context (logging.WithContext l (Ctx r)) ++
             [zerolog.Str "http.method" (Method r);
              zerolog.Str "http.path" (URL_Path r);
              zerolog.Int "http.status" s;
              zerolog.Int64 "duration_ms" (time.Milliseconds d)])
            "request completed"),
         (time.Milliseconds d).
  split; [| repeat split].
  - rewrite logging_Middleware_unfold. cbn zeta. fold l res s d.
    cbn [snd]. by rewrite emit_should by apply NewLogger_should.
  - intros Hs. cbn. unfold logging.completionLevel.
    by destruct (Z.leb_spec 500 s); [| lia].
  - intros Hs. cbn. unfold logging.completionLevel.
    destruct (Z.leb_spec 500 s); [lia |].
    by destruct (Z.leb_spec 400 s); [| lia].
  - intros Hs. cbn. unfold logging.completionLevel.
    destruct (Z.leb_spec 500 s); [lia |].
    by destruct (Z.leb_spec 400 s); [lia |].
  - unfold time.Milliseconds. rewrite Z.quot_div_nonneg by lia.
    apply Z.mul_div_le. lia.
  - unfold time.Milliseconds. rewrite Z.quot_div_nonneg by lia.
    pose proof (Z.mod_pos_bound d 1000000 ltac:(lia)).
    pose proof (Z.div_mod d 1000000 ltac:(lia)). lia.
Qed.

(** C8, witness: a handler that answers 404 after 2.5 ms is logged at
    warning level with [duration_ms] 2. *)
Lemma C8_completion_event_witness :
  ∃ e ms,
    stdout (snd (logging.Middleware (logging.NewLogger "svc" false)
                   (scripted [http.CallWriteHeader 404] (elapse 2500000))
                   _ _ sink0 (request "GET" "/missing" ∅) env0))
      = [e]
    ∧ zerolog.entry_level e = zerolog.WarnLevel
    ∧ zerolog.Int "http.status" 404 ∈ zerolog.entry_fields e
    ∧ zerolog.Int64 "duration_ms" ms ∈ zerolog.entry_fields e
    ∧ ms = 2.
Proof.
  destruct (C8_completion_event "svc" false
              (scripted [http.CallWriteHeader 404] (elapse 2500000))
              _ _ sink0 (request "GET" "/missing" ∅) env0)
    as (e & ms & Hout & _ & Hwarn & _ & _ & Hfields & Hms).
  { vm_compute. discriminate. }
  exists e, ms. cbn in Hms.
  split; [exact Hout |].
  split; [apply Hwarn; cbn; lia |].
  rewrite Hfields. cbn.
  split; [in_list |]. split; [in_list | lia].
Defined.

(** C10.  When the downstream handler returns without a call to
    [WriteHeader] or [Write], the logging middleware reports status 0 at
    info level, while the metrics middleware counts the request under
    status "200". *)
Theorem C10_default_status_differs (svc : string) (debug : bool)
    (c : metrics.Collector) (eff : Env → Env)
    (W : Type) (HW : http.ResponseWriter W) (w : W) (r : Request) (env : Env) :
  URL_Path r ≠ "/metrics" →
  let l := logging.NewLogger svc debug in
  let logged := snd (logging.Middleware l (scripted [] eff) W HW w r env) in
  let counted := snd (metrics.Middleware c (scripted [] eff) W HW w r env) in
  let entered :=
    eff (setRegistry (prometheus.GaugeInc (metrics.requestsInFlight c)) env) in
  (∃ e,
     stdout logged = stdout (eff (loggingStarted l r env)) ++ [e]
     ∧ zerolog.entry_level e = zerolog.InfoLevel
     ∧ zerolog.entry_message e = "request completed"
     ∧ zerolog.Int "http.status" 0 ∈ zerolog.entry_fields e)
  ∧ (∀ lvs,
       prometheus.counterValue (metrics.requestsTotal c) lvs (registry counted) =
         prometheus.counterValue (metrics.requestsTotal c) lvs (registry entered)
         + (if decide (lvs = [Method r; metrics.pathLabel r; "200"])
            then 1 else 0)).
Proof.
  intros Hpath l logged counted entered. split.
  - subst logged. rewrite logging_Middleware_unfold. cbn zeta.
    unfold scripted at 1 2 3 4 5. cbn [fst snd http.performAll fold_left
      logging.statusCode].
    rewrite emit_should by apply NewLogger_should.
    eexists. split; [reflexivity |]. cbn [stdout zerolog.entry_level
      zerolog.entry_message zerolog.entry_fields].
    repeat split. rewrite elem_of_app. right. in_list.
  - intros lvs. subst counted entered.
    rewrite metrics_Middleware_unfold by done. cbn zeta.
    unfold scripted. cbn [fst snd http.performAll fold_left
      metrics.statusCode setRegistry registry].
    rewrite counterValue_HistogramObserve, counterValue_CounterInc.
    by rewrite counterValue_GaugeDec.
Qed.

(** C10, witness: a handler that writes nothing, behind each middleware. *)
Lemma C10_default_status_differs_witness :
  let r := request "GET" "/hello" ∅ in
  let c := metrics.NewCollector "svc" in
  URL_Path r ≠ "/metrics"
  ∧ (∃ e,
       stdout (snd (logging.Middleware (logging.NewLogger "svc" false)
                      (scripted [] id) _ _ sink0 r env0)) = [e]
       ∧ zerolog.entry_level e = zerolog.InfoLevel
       ∧ zerolog.Int "http.status" 0 ∈ zerolog.entry_fields e)
  ∧ prometheus.counterValue (metrics.requestsTotal c) ["GET"; "/hello"; "200"]
      (registry (snd (metrics.Middleware c (scripted [] id) _ _ sink0 r env0)))
    = 1.
Proof.
  intros r c. split; [discriminate |].
  destruct (C10_default_status_differs "svc" false c id _ _ sink0 r env0
              ltac:(discriminate)) as [(e & Hout & Hlvl & _ & Hst) Hcount].
  split.
  - exists e. split; [exact Hout |]. split; [exact Hlvl | exact Hst].
  - exact (Hcount ["GET"; "/hello"; "200"]).
Defined.

(** ** The trace middleware *)

Lemma Get_Set_eq (h : http.Header) (key value : string) :
  http.Get (http.Set_ h key value) key = value.
Proof. unfold http.Get, http.Set_. by rewrite lookup_insert_eq. Qed.

Lemma Get_Set_ne (h : http.Header) (key key' value : string) :
  textproto.CanonicalMIMEHeaderKey key ≠ textproto.CanonicalMIMEHeaderKey key' →
  http.Get (http.Set_ h key value) key' = http.Get h key'.
Proof. intros Hne. unfold http.Get, http.Set_. by rewrite lookup_insert_ne. Qed.

(** A header that is absent reads as the empty string. *)
Lemma Get_absent (h : http.Header) (key : string) :
  h !! textproto.CanonicalMIMEHeaderKey key = None → http.Get h key = "".
Proof. intros Hnone. unfold http.Get. by rewrite Hnone. Qed.

(** The identifiers the middleware settles on, and the random source it
    leaves. *)
Lemma trace_Middleware_unfold (next : Handler) (W : Type)
    (HW : http.ResponseWriter W) (w : W) (r : Request) (env : Env) :
  trace.Middleware next W HW w r env =
    let t := if String.eqb (http.Get (ReqHeader r) "X-Trace-ID") ""
             then uuid.NewString env
             else (http.Get (ReqHeader r) "X-Trace-ID", env) in
    let q := if String.eqb (http.Get (ReqHeader r) "X-Request-ID") ""
             then uuid.NewString (snd t)
             else (http.Get (ReqHeader r) "X-Request-ID", snd t) in
    next W HW
      (http.putHeader
         (http.Set_
            (http.Header_
               (http.putHeader
                  (http.Set_ (http.Header_ w) "X-Trace-ID" (fst t)) w))
            "X-Request-ID" (fst q))
         (http.putHeader (http.Set_ (http.Header_ w) "X-Trace-ID" (fst t)) w))
      (Request_WithContext r
         (context.WithValue
            (context.WithValue (Ctx r) trace.traceIDKey
               (context.VString (fst t)))
            trace.requestIDKey (context.VString (fst q))))
      (snd q).
Proof.
  unfold trace.Middleware.
  destruct (String.eqb (http.Get (ReqHeader r) "X-Trace-ID") "");
    destruct (String.eqb (http.Get (ReqHeader r) "X-Request-ID") "");
    reflexivity.
Qed.

(** C5.  The trace middleware calls the downstream handler with a response
    writer whose two correlation headers are set and a request context that
    holds the same two values.  A header that came in non-empty goes out
    unchanged; one that was absent or empty is replaced by the next token
    of the random source, which is non-empty when the source's tokens are,
    and which the source will not hand out again. *)
Theorem C5_correlation_ids_resolved (next : Handler) (W : Type)
    (HW : http.ResponseWriter W) (w : W) (r : Request) (env : Env) :
  (∀ n, tokens env n ≠ "") →
  let traceIn := http.Get (ReqHeader r) "X-Trace-ID" in
  let requestIn := http.Get (ReqHeader r) "X-Request-ID" in
  ∃ w' ctx' env' traceID requestID,
    trace.Middleware next W HW w r env =
      next W HW w' (Request_WithContext r ctx') env'
    ∧ http.Get (http.Header_ w') "X-Trace-ID" = traceID
    ∧ http.Get (http.Header_ w') "X-Request-ID" = requestID
    ∧ trace.TraceIDFromContext ctx' = traceID
    ∧ trace.RequestIDFromContext ctx' = requestID
    ∧ traceID ≠ "" ∧ requestID ≠ ""
    ∧ (traceIn ≠ "" → traceID = traceIn)
    ∧ (requestIn ≠ "" → requestID = requestIn)
    ∧ (traceIn = "" → traceID = tokens env 0%nat)
    ∧ (requestIn = "" →
       requestID = tokens env (if String.eqb traceIn "" then 1 else 0)%nat)
    ∧ (∀ n, tokens env' n =
            tokens env ((if String.eqb traceIn "" then 1 else 0)
                        + (if String.eqb requestIn "" then 1 else 0) + n)%nat).
Proof.
  intros Htok traceIn requestIn.
  rewrite trace_Middleware_unfold. cbn zeta. fold traceIn requestIn.
  do 5 eexists. split; [reflexivity |].
  rewrite !http.Header_putHeader.
  split; [| split; [| split; [| split]]].
  - rewrite Get_Set_ne by (vm_compute; discriminate). apply Get_Set_eq.
  - apply Get_Set_eq.
  - reflexivity.
  - reflexivity.
  - destruct (String.eqb_spec traceIn "") as [Ht | Ht];
      destruct (String.eqb_spec requestIn "") as [Hq | Hq];
      cbn [fst snd uuid.NewString tokens];
      repeat split; try done; try apply Htok.
Qed.

(** C5, witness: a request that supplies a trace identifier and no request
    identifier. *)
Lemma C5_correlation_ids_resolved_witness :
  let r := request "GET" "/hello" {[ "X-Trace-Id" := ["abc"] ]} in
  (∀ n, tokens env0 n ≠ "")
  ∧ ∃ w' ctx' env',
      trace.Middleware (scripted [] id) _ _ sink0 r env0 =
        scripted [] id _ _ w' (Request_WithContext r ctx') env'
      ∧ http.Get (http.Header_ w') "X-Trace-ID" = "abc"
      ∧ http.Get (http.Header_ w') "X-Request-ID" = "token-0"
      ∧ trace.TraceIDFromContext ctx' = "abc"
      ∧ trace.RequestIDFromContext ctx' = "token-0".
Proof.
  intros r.
  assert (Htok : ∀ n, tokens env0 n ≠ "") by (intros n; discriminate).
  split; [exact Htok |].
  destruct (C5_correlation_ids_resolved (scripted [] id) _ _ sink0 r env0 Htok)
    as (w' & ctx' & env' & t & q & Heq & Ht & Hq & Hct & Hcq & _ & _
        & Hti & _ & _ & Hqg & _).
  exists w', ctx', env'.
  rewrite Ht, Hq, Hct, Hcq.
  rewrite (Hti ltac:(discriminate)), (Hqg eq_refl).
  repeat split. exact Heq.
Defined.

(** ** The correlated logger *)

(** What [trace] stores under its own key type is invisible to the
    string-keyed lookups of [WithContext]. *)
Lemma logging_WithContext_ignores_trace_keys (l : logging.Logger)
    (ctx : context.Context) (traceID requestID : string) :
  logging.WithContext l
    (trace.WithRequestID (trace.WithTraceID ctx traceID) requestID)
    = logging.WithContext l ctx.
Proof. reflexivity. Qed.

(** Behind the trace middleware, the logging middleware derives the logger
    it would derive from the request's own context. *)
Lemma trace_then_logging_same_logger (l : logging.Logger) (next : Handler)
    (W : Type) (HW : http.ResponseWriter W) (w : W) (r : Request) (env : Env) :
  ∃ w' ctx' env',
    trace.Middleware (logging.Middleware l next) W HW w r env =
      logging.Middleware l next W HW w' (Request_WithContext r ctx') env'
    ∧ trace.TraceIDFromContext ctx' = http.Get (http.Header_ w') "X-Trace-ID"
    ∧ logging.WithContext l ctx' = logging.WithContext l (Ctx r).
Proof.
  rewrite trace_Middleware_unfold. cbn zeta.
  do 3 eexists. split; [reflexivity |].
  rewrite !http.Header_putHeader. split; [| reflexivity].
  rewrite Get_Set_ne by (vm_compute; discriminate).
  by rewrite Get_Set_eq.
Qed.

(** C7, at a failing input.  A request with [X-Trace-ID: abc] and
    [X-Request-ID: r-1] goes through the trace middleware and then the
    logging middleware of a debug logger.  The handler finds "abc" in its
    context and writes it out, and both headers are echoed, yet neither of
    the two events logged has a [trace_id] or a [request_id] field. *)
Theorem C7_trace_ids_absent_from_events :
  let r :=
    request "GET" "/hello"
      {[ "X-Trace-Id" := ["abc"]; "X-Request-Id" := ["r-1"] ]} in
  let res :=
    trace.Middleware
      (logging.Middleware (logging.NewLogger "svc" true) (echoTraceID 1500000))
      _ _ sink0 r env0 in
  http.rec_calls (fst res)
    = [http.CallWriteHeader 200;
       http.CallWrite (String.list_byte_of_string "abc")]
  ∧ http.Get (http.rec_header (fst res)) "X-Trace-ID" = "abc"
  ∧ http.Get (http.rec_header (fst res)) "X-Request-ID" = "r-1"
  ∧ map zerolog.entry_message (stdout (snd res))
    = ["request started"; "request completed"]
  ∧ Forall (λ e, Forall (λ f, zerolog.fieldKey f ≠ "trace_id"
                              ∧ zerolog.fieldKey f ≠ "request_id")
                        (zerolog.entry_fields e))
           (stdout (snd res)).
Proof.
  intros r res.
  split; [by vm_compute |]. split; [by vm_compute |].
  split; [by vm_compute |]. split; [by vm_compute |].
  apply (bool_decide_unpack _). vm_compute. exact I.
Qed.

(** ** The readiness handler *)

Lemma fold_checkOne (ctx : context.Context) (checkers : list health.Checker) :
  ∀ (results : list health.CheckResult) (allOK : bool) (env : Env),
    fold_left (health.checkOne ctx) checkers (results, allOK, env) =
      (results ++ map reportedEntry (outcomes ctx checkers env),
       allOK && forallb isNil (outcomes ctx checkers env),
       afterChecks ctx checkers env).
Proof.
  induction checkers as [| checker checkers IH]; intros results allOK env.
  - simpl. by rewrite app_nil_r, andb_true_r.
  - simpl. destruct (checker ctx env) as [[msg |] env'] eqn:Hc; simpl;
      rewrite IH, <- app_assoc; simpl.
    + by rewrite andb_false_r.
    + reflexivity.
Qed.

(** The response the handler encodes and the status it sends. *)
Lemma ReadinessHandler_unfold (Encode : health.HealthResponse → bytes)
    (checkers : list health.Checker) (W : Type) (HW : http.ResponseWriter W)
    (w : W) (r : Request) (env : Env) :
  let ctx := context.WithDeadline (Ctx r) (now env + 5 * time.Second) in
  let errs := outcomes ctx checkers env in
  health.ReadinessHandler Encode checkers W HW w r env =
    (fst (http.Write
            (Encode (health.mkHealthResponse
                       (if forallb isNil errs then "ok" else "error")
                       (map reportedEntry errs)))
            (http.WriteHeader
               (if forallb isNil errs then http.StatusOK
                else http.StatusServiceUnavailable)
               (http.putHeader
                  (http.Set_ (http.Header_ w) "Content-Type" "application/json")
                  w))),
     afterChecks ctx checkers env).
Proof.
  intros ctx errs. unfold health.ReadinessHandler. fold ctx.
  rewrite fold_checkOne. fold errs. simpl.
  by destruct (forallb isNil errs).
Qed.

Lemma forallb_isNil (errs : list error) :
  forallb isNil errs = true ↔ Forall (λ err, err = None) errs.
Proof.
  rewrite forallb_forall, Forall_forall.
  split; intros H err Hin.
  - apply list_elem_of_In, H in Hin. by destruct err.
  - apply list_elem_of_In, H in Hin. by subst.
Qed.

Lemma forallb_isNil_false (errs : list error) :
  forallb isNil errs = false ↔ Exists (λ err, err ≠ None) errs.
Proof.
  induction errs as [| [msg |] errs IH]; simpl.
  - split; [done | by intros H%Exists_nil].
  - split; [intros _; by left | done].
  - rewrite IH, Exists_cons. split; [by right | by intros [? | ?]].
Qed.

Lemma outcomes_length (ctx : context.Context) (checkers : list health.Checker)
    (env : Env) :
  length (outcomes ctx checkers env) = length checkers.
Proof.
  revert env.
  induction checkers as [| checker checkers IH]; intros env; [done |].
  simpl. destruct (checker ctx env) as [err env']. simpl. by rewrite IH.
Qed.

(** C6.  The handler runs the probes in registration order and answers
    200 with status "ok" exactly when every probe returned nil, and 503 with
    status "error" exactly when some probe returned an error.  The checks
    array has one entry per probe, in registration order; the entry of a
    probe that failed has status "error" and the probe's error text, that of
    a probe that succeeded has status "ok" and no error text. *)
Theorem C6_readiness_verdict (checkers : list health.Checker) (r : Request)
    (env : Env) :
  let ctx := context.WithDeadline (Ctx r) (now env + 5 * time.Second) in
  let errs := outcomes ctx checkers env in
  ∃ response code,
    (∀ (Encode : health.HealthResponse → bytes) (W : Type)
       (HW : http.ResponseWriter W) (w : W),
       health.ReadinessHandler Encode checkers W HW w r env =
         (fst (http.Write (Encode response)
                 (http.WriteHeader code
                    (http.putHeader
                       (http.Set_ (http.Header_ w)
                                  "Content-Type" "application/json") w))),
          afterChecks ctx checkers env))
    ∧ (code = 200 ∧ health.Status_ response = "ok"
       ↔ Forall (λ err, err = None) errs)
    ∧ (code = 503 ∧ health.Status_ response = "error"
       ↔ Exists (λ err, err ≠ None) errs)
    ∧ length errs = length checkers
    ∧ map (λ cr, (health.Status cr, health.Error cr)) (health.Checks response)
      = map reported errs.
Proof.
  intros ctx errs.
  do 2 eexists. split; [intros; apply ReadinessHandler_unfold |].
  fold ctx errs. cbn [health.Status_ health.Checks].
  pose proof (forallb_isNil errs) as Hall.
  split; [| split; [| split]].
  - destruct (forallb isNil errs).
    + split; [intros _; by apply Hall | done].
    + split; [intros [? _]; done | intros H; apply Hall in H; done].
  - pose proof (forallb_isNil_false errs) as Hex.
    destruct (forallb isNil errs).
    + split; [intros [? _]; done | intros H; by apply Hex in H].
    + split; [intros _; by apply Hex | done].
  - apply outcomes_length.
  - rewrite map_map. apply map_ext. by intros [msg |].
Qed.

(** The example of the specification: P1 succeeds, P2 fails with
    "db down". *)
Example readiness_P1_ok_P2_down :
  let res :=
    health.ReadinessHandler encodeStatus [probeOK; probeFail "db down"]
      _ _ sink0 (request "GET" "/readyz" ∅) env0 in
  http.rec_calls (fst res)
    = [http.CallWriteHeader 503;
       http.CallWrite (String.list_byte_of_string "error")]
  ∧ http.Get (http.rec_header (fst res)) "Content-Type" = "application/json"
  ∧ map reported
      (outcomes (context.WithDeadline context.Background 5000000000)
         [probeOK; probeFail "db down"] env0)
    = [("ok", ""); ("error", "db down")].
Proof. by vm_compute. Qed.

(** C4, the code as it is.  Whatever probes are registered, every entry of
    the checks array is named "dependency": the name given to
    [DatabaseChecker], [RedisChecker] or [CustomChecker] does not reach the
    response. *)
Theorem C4_every_entry_named_dependency (checkers : list health.Checker)
    (r : Request) (env : Env) :
  ∃ response code env',
    (∀ (Encode : health.HealthResponse → bytes) (W : Type)
       (HW : http.ResponseWriter W) (w : W),
       health.ReadinessHandler Encode checkers W HW w r env =
         (fst (http.Write (Encode response)
                 (http.WriteHeader code
                    (http.putHeader
                       (http.Set_ (http.Header_ w)
                                  "Content-Type" "application/json") w))),
          env'))
    ∧ length (health.Checks response) = length checkers
    ∧ Forall (λ cr, health.Name_ cr = "dependency") (health.Checks response).
Proof.
  do 3 eexists. split; [intros; apply ReadinessHandler_unfold |].
  cbn [health.Checks]. split.
  - by rewrite length_map, outcomes_length.
  - apply Forall_forall. intros cr Hin.
    apply list_elem_of_In, in_map_iff in Hin as (err & <- & _). reflexivity.
Qed.

(** C4, at a failing input: a database probe and a custom probe named
    "cache", both healthy, are reported as two entries named
    "dependency". *)
Example readiness_names_lost :
  fst (fst (fold_left
              (health.checkOne
                 (context.WithDeadline context.Background 5000000000))
              [health.DatabaseChecker probeOK;
               health.CustomChecker "cache" probeOK]
              ([], true, env0)))
  = [health.mkCheckResult "dependency" "ok" "";
     health.mkCheckResult "dependency" "ok" ""].
Proof. reflexivity. Qed.

(** ** Further properties: package trace *)

(** X1.  An identifier stored with [WithTraceID] or [WithRequestID] is what
    the matching extractor returns, whatever the context held before, and
    storing one of the two identifiers leaves the other as it was. *)
Theorem trace_ids_round_trip (ctx : context.Context) (traceID requestID : string) :
  trace.TraceIDFromContext (trace.WithTraceID ctx traceID) = traceID
  ∧ trace.RequestIDFromContext (trace.WithRequestID ctx requestID) = requestID
  ∧ trace.TraceIDFromContext (trace.WithRequestID ctx requestID)
    = trace.TraceIDFromContext ctx
  ∧ trace.RequestIDFromContext (trace.WithTraceID ctx traceID)
    = trace.RequestIDFromContext ctx.
Proof. repeat split. Qed.

(** X2.  A value stored under a key that is not of type [trace.contextKey]
    (a plain string, even "trace_id", another package's key) or a deadline
    put on the context does not change what the extractors return; the empty
    context holds no identifier, and a value under the trace key that is not
    a string reads as the empty string. *)
Theorem trace_keys_isolated (ctx : context.Context) (key : context.Key)
    (val : context.Val) (deadline i : Z) :
  (∀ s, key ≠ context.TraceKey s) →
  trace.TraceIDFromContext (context.WithValue ctx key val)
    = trace.TraceIDFromContext ctx
  ∧ trace.RequestIDFromContext (context.WithValue ctx key val)
    = trace.RequestIDFromContext ctx
  ∧ trace.TraceIDFromContext (context.WithDeadline ctx deadline)
    = trace.TraceIDFromContext ctx
  ∧ trace.TraceIDFromContext context.Background = ""
  ∧ trace.RequestIDFromContext context.Background = ""
  ∧ trace.TraceIDFromContext
      (context.WithValue ctx trace.traceIDKey (context.VInt i)) = "".
Proof.
  intros Hkey.
  unfold trace.TraceIDFromContext, trace.RequestIDFromContext.
  cbn [context.Value].
  rewrite !decide_False by apply Hkey.
  repeat split.
Qed.

Lemma trace_keys_isolated_witness :
  trace.TraceIDFromContext
    (context.WithValue (trace.WithTraceID context.Background "abc")
       (context.StringKey "trace_id") (context.VString "other")) = "abc".
Proof.
  rewrite (proj1 (trace_keys_isolated
                    (trace.WithTraceID context.Background "abc")
                    (context.StringKey "trace_id") (context.VString "other")
                    0 0 ltac:(discriminate))).
  reflexivity.
Defined.

(** X3.  For a request without correlation headers and a random source that
    never repeats a token, the trace identifier and the request identifier
    the middleware generates differ from each other, in the context as on
    the response, and the source it leaves will not yield either again. *)
Theorem trace_generated_ids_distinct (next : Handler) (W : Type)
    (HW : http.ResponseWriter W) (w : W) (r : Request) (env : Env) :
  (∀ m n, tokens env m = tokens env n → m = n) →
  http.Get (ReqHeader r) "X-Trace-ID" = "" →
  http.Get (ReqHeader r) "X-Request-ID" = "" →
  ∃ w' ctx' env',
    trace.Middleware next W HW w r env =
      next W HW w' (Request_WithContext r ctx') env'
    ∧ trace.TraceIDFromContext ctx' ≠ trace.RequestIDFromContext ctx'
    ∧ http.Get (http.Header_ w') "X-Trace-ID"
      ≠ http.Get (http.Header_ w') "X-Request-ID"
    ∧ (∀ n, tokens env' n ≠ trace.TraceIDFromContext ctx'
            ∧ tokens env' n ≠ trace.RequestIDFromContext ctx').
Proof.
  intros Hinj Ht Hq.
  rewrite trace_Middleware_unfold. cbn zeta. rewrite Ht, Hq.
  cbn [String.eqb fst snd uuid.NewString tokens].
  do 3 eexists. split; [reflexivity |].
  rewrite !http.Header_putHeader.
  rewrite Get_Set_ne by (vm_compute; discriminate).
  rewrite !Get_Set_eq.
  cbn [trace.TraceIDFromContext trace.RequestIDFromContext context.Value
       tokens].
  unfold trace.TraceIDFromContext, trace.RequestIDFromContext.
  cbn [context.Value]. simpl decide. cbn iota.
  repeat split; intros Heq; apply Hinj in Heq; lia.
Qed.

Lemma trace_generated_ids_distinct_witness :
  ∃ w' ctx' env',
    trace.Middleware (scripted [] id) _ _ sink0 (request "GET" "/hello" ∅) env0 =
      scripted [] id _ _ w' (Request_WithContext (request "GET" "/hello" ∅) ctx')
        env'
    ∧ trace.TraceIDFromContext ctx' ≠ trace.RequestIDFromContext ctx'.
Proof.
  assert (Hinj : ∀ m n, tokens env0 m = tokens env0 n → m = n).
  { intros m n Heq. cbn in Heq.
    apply (inj (String.append "token-")) in Heq.
    apply Itoa_inj in Heq. lia. }
  assert (Ht : http.Get (ReqHeader (request "GET" "/hello" ∅)) "X-Trace-ID" = "")
    by reflexivity.
  assert (Hq : http.Get (ReqHeader (request "GET" "/hello" ∅)) "X-Request-ID" = "")
    by reflexivity.
  destruct (trace_generated_ids_distinct (scripted [] id) _ _ sink0
              (request "GET" "/hello" ∅) env0 Hinj Ht Hq)
    as (w' & ctx' & env' & Heq & Hne & _).
  exists w', ctx', env'. split; [exact Heq | exact Hne].
Defined.

(** ** Further properties: package logging *)

(** X4.  [WithContext] only ever appends to the fields of the base logger:
    at most one field each for [trace_id], [request_id] and [user_id], in
    that order, and it keeps the base logger's level and timestamp
    setting. *)
Theorem logging_WithContext_appends (l : logging.Logger) (ctx : context.Context) :
  ∃ extra,
    zerolog.context (logging.WithContext l ctx)
      = zerolog.context (logging.Logger_ l) ++ extra
    ∧ sublist (map zerolog.fieldKey extra) ["trace_id"; "request_id"; "user_id"]
    ∧ zerolog.level (logging.WithContext l ctx)
      = zerolog.level (logging.Logger_ l)
    ∧ zerolog.timestamp (logging.WithContext l ctx)
      = zerolog.timestamp (logging.Logger_ l).
Proof.
  exists
    ((match context.Value ctx (context.StringKey "trace_id") with
      | Some (context.VString id) => [zerolog.Str "trace_id" id]
      | _ => []
      end) ++
     (match context.Value ctx (context.StringKey "request_id") with
      | Some (context.VString id) => [zerolog.Str "request_id" id]
      | _ => []
      end) ++
     (match context.Value ctx (context.StringKey "user_id") with
      | Some (context.VString id) => [zerolog.Str "user_id" id]
      | _ => []
      end)).
  unfold logging.WithContext.
  destruct (context.Value ctx (context.StringKey "trace_id")) as [[] |];
    destruct (context.Value ctx (context.StringKey "request_id")) as [[] |];
    destruct (context.Value ctx (context.StringKey "user_id")) as [[] |];
    cbn [zerolog.WithStr zerolog.context zerolog.level zerolog.timestamp
         map app zerolog.fieldKey];
    rewrite <- ?app_assoc, ?app_nil_r;
    (split; [reflexivity |]); (split; [| split; reflexivity]);
    repeat first [apply sublist_nil | apply sublist_skip | apply sublist_cons].
Qed.

(** X5.  An identifier that the context holds under the plain string key
    "trace_id", "request_id" or "user_id", as a string, becomes a field of
    the derived logger; if none of the three keys holds a string, the
    derived logger is the base logger. *)
Theorem logging_WithContext_string_keys (l : logging.Logger)
    (ctx : context.Context) :
  (∀ k v, k ∈ ["trace_id"; "request_id"; "user_id"] →
          context.Value ctx (context.StringKey k) = Some (context.VString v) →
          zerolog.Str k v ∈ zerolog.context (logging.WithContext l ctx))
  ∧ ((∀ k v, k ∈ ["trace_id"; "request_id"; "user_id"] →
             context.Value ctx (context.StringKey k)
               ≠ Some (context.VString v)) →
     logging.WithContext l ctx = logging.Logger_ l).
Proof.
  split.
  - intros k v Hk Hv. unfold logging.WithContext.
    rewrite !elem_of_cons, elem_of_nil in Hk.
    destruct Hk as [-> | [-> | [-> | []]]]; rewrite Hv;
      repeat (match goal with
              | |- context [match context.Value ?c ?key with _ => _ end] =>
                  destruct (context.Value c key) as [[] |]
              end);
      cbn [zerolog.WithStr zerolog.context];
      rewrite ?elem_of_app, ?elem_of_cons; tauto.
  - intros Hnone. unfold logging.WithContext.
    pose proof (Hnone "trace_id") as Ht.
    pose proof (Hnone "request_id") as Hr.
    pose proof (Hnone "user_id") as Hu.
    destruct (context.Value ctx (context.StringKey "trace_id")) as [[] |];
      try (exfalso; eapply Ht; [in_list | reflexivity]);
      destruct (context.Value ctx (context.StringKey "request_id")) as [[] |];
      try (exfalso; eapply Hr; [in_list | reflexivity]);
      destruct (context.Value ctx (context.StringKey "user_id")) as [[] |];
      try (exfalso; eapply Hu; [in_list | reflexivity]);
      reflexivity.
Qed.

Lemma logging_WithContext_string_keys_witness :
  zerolog.Str "user_id" "u-7" ∈
    zerolog.context
      (logging.WithContext (logging.NewLogger "svc" false)
         (context.WithValue context.Background
            (context.StringKey "user_id") (context.VString "u-7"))).
Proof.
  apply (proj1 (logging_WithContext_string_keys
                  (logging.NewLogger "svc" false)
                  (context.WithValue context.Background
                     (context.StringKey "user_id") (context.VString "u-7")))).
  - in_list.
  - reflexivity.
Defined.

(** X6.  Behind the logging middleware, a handler that fetches its logger
    with [FromContext] gets the logger the middleware itself logs with, and
    the trace identifier of the request context is still there. *)
Theorem logging_Middleware_hands_down_logger (l : logging.Logger)
    (k : zerolog.Logger → string → Handler)
    (W : Type) (HW : http.ResponseWriter W) (w : W) (r : Request) (env : Env) :
  logging.Middleware l
    (λ W' HW' w' r' env',
       k (logging.FromContext (Ctx r')) (trace.TraceIDFromContext (Ctx r'))
         W' HW' w' r' env')
    W HW w r env
  = logging.Middleware l
      (k (logging.WithContext l (Ctx r)) (trace.TraceIDFromContext (Ctx r)))
      W HW w r env.
Proof. by rewrite !logging_Middleware_unfold. Qed.

(** X7.  From a context to which no logger was attached, [FromContext]
    returns the default logger: no fields, a timestamp, and no event
    filtered out, whatever its level. *)
Theorem logging_FromContext_fallback (ctx : context.Context) :
  noLogger ctx →
  logging.FromContext ctx = zerolog.mkLogger zerolog.TraceLevel [] true
  ∧ ∀ lvl, zerolog.should (logging.FromContext ctx) lvl = true.
Proof.
  intros Hno.
  assert (Hdef : logging.FromContext ctx
                 = zerolog.mkLogger zerolog.TraceLevel [] true).
  { unfold logging.FromContext.
    induction ctx as [| parent IH key val | parent IH deadline];
      cbn [context.Value]; [reflexivity | | by apply IH].
    destruct Hno as [Hkey Hno]. rewrite decide_False by done. by apply IH. }
  split; [exact Hdef |]. intros lvl. rewrite Hdef. by destruct lvl.
Qed.

Lemma logging_FromContext_fallback_witness :
  logging.FromContext
    (trace.WithRequestID (trace.WithTraceID context.Background "abc") "r-1")
  = zerolog.mkLogger zerolog.TraceLevel [] true.
Proof.
  apply (logging_FromContext_fallback
           (trace.WithRequestID (trace.WithTraceID context.Background "abc")
              "r-1")).
  cbn. repeat split; discriminate.
Defined.

(** X8.  A logger derived by [WithContext] from [NewLogger(service, debug)]
    drops the events below info level, or below debug level if [debug] is
    set, and writes every other event with a timestamp and with the service
    name as its first field and the event's own fields last. *)
Theorem logging_NewLogger_lines (svc : string) (debug : bool)
    (ctx : context.Context) (lvl : zerolog.Level)
    (fields : list zerolog.Field) (msg : string) (t : Z) :
  let logger := logging.WithContext (logging.NewLogger svc debug) ctx in
  let minimum := if debug then 0 else 1 in
  (zerolog.levelValue lvl < minimum →
   zerolog.line logger lvl fields msg t = None)
  ∧ (minimum ≤ zerolog.levelValue lvl →
     ∃ extra,
       zerolog.line logger lvl fields msg t
         = Some (zerolog.mkEntry lvl (Some t)
                   (zerolog.Str "service" svc :: extra ++ fields) msg)
       ∧ sublist (map zerolog.fieldKey extra)
                 ["trace_id"; "request_id"; "user_id"]).
Proof.
  intros logger minimum.
  destruct (logging_WithContext_appends (logging.NewLogger svc debug) ctx)
    as (extra & Hctx & Hsub & Hlvl & Hts).
  fold logger in Hctx, Hlvl, Hts.
  unfold zerolog.line, zerolog.should. rewrite Hlvl, Hts, Hctx.
  cbn [logging.NewLogger logging.Logger_ zerolog.WithStr zerolog.WithTimestamp
       zerolog.Level_ zerolog.New zerolog.level zerolog.timestamp
       zerolog.context app].
  split.
  - intros Hlt. subst minimum.
    destruct (Z.leb_spec (zerolog.levelValue
                (if debug then zerolog.DebugLevel else zerolog.InfoLevel))
                (zerolog.levelValue lvl)) as [Hle | _]; [| done].
    destruct debug; cbn in Hle; lia.
  - intros Hge. subst minimum. exists extra.
    destruct (Z.leb_spec (zerolog.levelValue
                (if debug then zerolog.DebugLevel else zerolog.InfoLevel))
                (zerolog.levelValue lvl)) as [_ | Hlt].
    + split; [reflexivity | exact Hsub].
    + destruct debug; cbn in Hlt; lia.
Qed.

Lemma logging_NewLogger_lines_witness :
  zerolog.line
    (logging.WithContext (logging.NewLogger "svc" false) context.Background)
    zerolog.DebugLevel [] "request started" 0 = None.
Proof.
  apply (proj1 (logging_NewLogger_lines "svc" false context.Background
                  zerolog.DebugLevel [] "request started" 0)).
  cbn. lia.
Defined.

Lemma NewLogger_should_debug (svc : string) (debug : bool)
    (ctx : context.Context) :
  zerolog.should (logging.WithContext (logging.NewLogger svc debug) ctx)
                 zerolog.DebugLevel = debug.
Proof.
  unfold zerolog.should. rewrite logging_WithContext_level. by destruct debug.
Qed.

(** X9.  Around a handler that logs nothing itself, the middleware of a
    [NewLogger] logger writes one line per request, "request completed", and
    in debug mode a "request started" line before it, at debug level, with
    the method, the path and the remote address. *)
Theorem logging_Middleware_lines (svc : string) (debug : bool)
    (cs : list http.Call) (d : time.Duration)
    (W : Type) (HW : http.ResponseWriter W) (w : W) (r : Request) (env : Env) :
  let l := logging.NewLogger svc debug in
  let logger := logging.WithContext l (Ctx r) in
  let started :=
    zerolog.mkEntry zerolog.DebugLevel (Some (now env))
      (zerolog.context logger ++
       [zerolog.Str "http.method" (Method r);
        zerolog.Str "http.path" (URL_Path r);
        zerolog.Str "http.remote_addr" (RemoteAddr r)])
      "request started" in
  ∃ completed,
    stdout (snd (logging.Middleware l (scripted cs (elapse d)) W HW w r env))
      = stdout env ++ (if debug then [started] else []) ++ [completed]
    ∧ zerolog.entry_message completed = "request completed"
    ∧ zerolog.entry_time completed = Some (now env + d).
Proof.
  intros l logger started.
  assert (Hts : zerolog.timestamp logger = true).
  { destruct (logging_WithContext_appends l (Ctx r))
      as (? & _ & _ & _ & Hts). exact Hts. }
  assert (Hnow : now (elapse d (loggingStarted l r env)) = now env + d).
  { unfold elapse. cbn [now]. unfold loggingStarted. by rewrite emit_now. }
  assert (Hout : stdout (elapse d (loggingStarted l r env))
                 = stdout env ++ (if debug then [started] else [])).
  { unfold elapse. cbn [stdout]. unfold loggingStarted, emit, zerolog.line.
    fold l logger. unfold logger at 1, l at 1.
    rewrite NewLogger_should_debug. fold l logger. rewrite Hts.
    destruct debug; [reflexivity | by rewrite app_nil_r]. }
  rewrite logging_Middleware_unfold. cbn zeta.
  unfold scripted. cbn [fst snd].
  rewrite emit_should by apply NewLogger_should.
  fold l logger. rewrite Hts, Hnow, Hout. cbn [stdout].
  eexists. split; [by rewrite <- app_assoc |]. split; reflexivity.
Qed.

(** ** Further properties: the response wrappers *)

Section Transparency.
Context {W : Type} `{HW : http.ResponseWriter W}.

(** The behaviour of the [net/http] server's response writer that the
    wrappers rely on: a [Write] sends status 200 if no header was written
    yet, and a [WriteHeader] after any call changes nothing. *)
Hypothesis Write_implies_header :
  ∀ (b : bytes) (w : W),
    fst (http.Write b (http.WriteHeader http.StatusOK w)) = fst (http.Write b w).
Hypothesis WriteHeader_once :
  ∀ (code : Z) (c : http.Call) (w : W),
    http.WriteHeader code (http.perform c w) = http.perform c w.

Lemma performAll_filter_written (cs : list http.Call) :
  ∀ w : W, (∀ code, http.WriteHeader code w = w) →
    http.performAll (filter (λ c, isWrite c = true) cs) w = http.performAll cs w.
Proof.
  induction cs as [| c cs IH]; intros w Hw; [reflexivity |].
  destruct c as [code | b].
  - rewrite filter_cons_False by done.
    unfold http.performAll at 2. cbn [fold_left http.perform].
    rewrite Hw. by apply IH.
  - rewrite filter_cons_True by done.
    unfold http.performAll. cbn [fold_left]. apply IH.
    intros code. apply WriteHeader_once.
Qed.

Lemma performAll_forwarded (c : http.Call) (rest : list http.Call) (w : W) :
  http.performAll (forwarded c rest) w = http.performAll (c :: rest) w.
Proof.
  unfold forwarded, http.performAll. rewrite fold_left_app.
  assert (Hfirst : fold_left (λ w c, http.perform c w) (firstForwarded c) w
                   = http.perform c w).
  { destruct c as [code | b]; [reflexivity |].
    cbn [firstForwarded fold_left http.perform]. apply Write_implies_header. }
  rewrite Hfirst. cbn [fold_left].
  apply performAll_filter_written. intros code. apply WriteHeader_once.
Qed.

(** X10.  On a response writer that behaves as the server's does, either
    wrapper is transparent: after any calls made through the wrapper, the
    wrapped writer is in the state the same calls would have left it in
    without the wrapper. *)
Theorem wrappers_transparent (w : W) (s0 : Z) (cs : list http.Call) :
  logging.ResponseWriter
    (http.performAll cs (logging.mkResponseWriter w s0 false))
    = http.performAll cs w
  ∧ metrics.ResponseWriter
      (http.performAll cs (metrics.mkResponseWriter w s0 false))
    = http.performAll cs w.
Proof.
  destruct cs as [| c rest]; [done |].
  rewrite logging_performAll_first, metrics_performAll_first.
  cbn [logging.ResponseWriter metrics.ResponseWriter].
  by rewrite performAll_forwarded.
Qed.
End Transparency.

Lemma Server_Write_implies_header (b : bytes) (w : Server) :
  fst (http.Write b (http.WriteHeader http.StatusOK w)) = fst (http.Write b w).
Proof. destruct w as [h [] s body]; reflexivity. Qed.

Lemma Server_WriteHeader_once (code : Z) (c : http.Call) (w : Server) :
  http.WriteHeader code (http.perform c w) = http.perform c w.
Proof. destruct w as [h [] s body], c; reflexivity. Qed.

Lemma wrappers_transparent_witness :
  let calls :=
    [http.CallWriteHeader 201; http.CallWrite body0; http.CallWriteHeader 404] in
  logging.ResponseWriter
    (http.performAll calls (logging.mkResponseWriter server0 0 false))
  = mkServer ∅ true 201 body0.
Proof.
  intros calls.
  rewrite (proj1 (wrappers_transparent Server_Write_implies_header
                    Server_WriteHeader_once server0 0 calls)).
  reflexivity.
Defined.

Lemma filter_isWrite_idemp (cs : list http.Call) :
  filter (λ c, isWrite c = true) (filter (λ c, isWrite c = true) cs)
  = filter (λ c, isWrite c = true) cs.
Proof.
  induction cs as [| [code | b] cs IH]; [reflexivity | |].
  - by rewrite filter_cons_False by done.
  - rewrite filter_cons_True by done.
    rewrite (filter_cons_True _ (http.CallWrite b)) by done. by rewrite IH.
Qed.

Lemma forwarded_forwarded (c : http.Call) (rest : list http.Call) :
  ∃ rest',
    forwarded c rest = http.CallWriteHeader (firstStatus c) :: rest'
    ∧ forwarded (http.CallWriteHeader (firstStatus c)) rest' = forwarded c rest.
Proof.
  unfold forwarded. destruct c as [code | b]; cbn [firstForwarded firstStatus app].
  - eexists. split; [reflexivity |]. by rewrite filter_isWrite_idemp.
  - eexists. split; [reflexivity |]. cbn [app].
    rewrite filter_cons_True by done. by rewrite filter_isWrite_idemp.
Qed.

(** X11.  With the logging wrapper around the metrics wrapper, as the
    middleware order of the package stacks them, both record the same status
    as soon as the handler makes one call, and the innermost writer receives
    what a single wrapper would have forwarded. *)
Theorem wrappers_nested_agree (W : Type) (HW : http.ResponseWriter W) (w : W)
    (s0 s1 : Z) (c : http.Call) (rest : list http.Call) :
  let outer :=
    http.performAll (c :: rest)
      (logging.mkResponseWriter (metrics.mkResponseWriter w s1 false) s0 false) in
  logging.statusCode outer = firstStatus c
  ∧ metrics.statusCode (logging.ResponseWriter outer) = firstStatus c
  ∧ metrics.ResponseWriter (logging.ResponseWriter outer)
    = http.performAll (forwarded c rest) w.
Proof.
  intros outer. subst outer. rewrite logging_performAll_first.
  cbn [logging.statusCode logging.ResponseWriter].
  destruct (forwarded_forwarded c rest) as (rest' & -> & Hidem).
  rewrite metrics_performAll_first.
  cbn [metrics.statusCode metrics.ResponseWriter firstStatus].
  by rewrite Hidem.
Qed.

(** ** Further properties: package metrics *)

(** X12.  For a request that is not for [/metrics], the downstream handler
    runs with the in-flight gauge one above its value on entry, and the
    middleware takes that one off again when the handler has returned: if
    the handler leaves the gauge alone, the gauge ends where it started. *)
Theorem metrics_in_flight_gauge (c : metrics.Collector) (next : Handler)
    (W : Type) (HW : http.ResponseWriter W) (w : W) (r : Request) (env : Env) :
  URL_Path r ≠ "/metrics" →
  let gauge := prometheus.gaugeValue (metrics.requestsInFlight c) in
  let entered :=
    setRegistry (prometheus.GaugeInc (metrics.requestsInFlight c)) env in
  let res :=
    next _ _ (metrics.mkResponseWriter w http.StatusOK false) r entered in
  let final := registry (snd (metrics.Middleware c next W HW w r env)) in
  gauge (registry entered) = gauge (registry env) + 1
  ∧ gauge final = gauge (registry (snd res)) - 1
  ∧ (gauge (registry (snd res)) = gauge (registry entered) →
     gauge final = gauge (registry env)).
Proof.
  intros Hpath gauge entered res final.
  assert (Hin : gauge (registry entered) = gauge (registry env) + 1).
  { subst gauge entered. cbn [setRegistry registry].
    apply gaugeValue_GaugeInc. }
  assert (Hout : gauge final = gauge (registry (snd res)) - 1).
  { subst gauge final res entered. by apply metrics_Middleware_gauge. }
  split; [exact Hin |]. split; [exact Hout |]. lia.
Qed.

Lemma metrics_in_flight_gauge_witness :
  let c := metrics.NewCollector "svc" in
  prometheus.gaugeValue (metrics.requestsInFlight c)
    (registry (snd (metrics.Middleware c (scripted [http.CallWrite body0] id)
                      _ _ sink0 (request "GET" "/hello" ∅) env0)))
  = prometheus.gaugeValue (metrics.requestsInFlight c) (registry env0).
Proof.
  intros c.
  assert (Hpath : URL_Path (request "GET" "/hello" ∅) ≠ "/metrics")
    by discriminate.
  destruct (metrics_in_flight_gauge c (scripted [http.CallWrite body0] id)
              _ _ sink0 (request "GET" "/hello" ∅) env0 Hpath)
    as (_ & _ & Hback).
  apply Hback. reflexivity.
Defined.

Lemma counterValue_GaugeInc (name name' : string) (lvs : list string)
    (reg : prometheus.Registry) :
  prometheus.counterValue name lvs (prometheus.GaugeInc name' reg) =
    prometheus.counterValue name lvs reg.
Proof. reflexivity. Qed.

(** One request through the middleware, served by a handler that makes the
    calls [call :: rest] and takes [d]. *)
Lemma metrics_Middleware_scripted (c : metrics.Collector) (call : http.Call)
    (rest : list http.Call) (d : time.Duration)
    (W : Type) (HW : http.ResponseWriter W) (w : W) (r : Request) (env : Env) :
  URL_Path r ≠ "/metrics" →
  metrics.Middleware c (scripted (call :: rest) (elapse d)) W HW w r env =
    (http.performAll (forwarded call rest) w,
     mkEnv (now env + d) (tokens env) (stdout env)
       (prometheus.HistogramObserve (metrics.requestDuration c)
          [Method r; metrics.pathLabel r] d
          (prometheus.CounterInc (metrics.requestsTotal c)
             [Method r; metrics.pathLabel r; strconv.Itoa (firstStatus call)]
             (prometheus.GaugeDec (metrics.requestsInFlight c)
                (prometheus.GaugeInc (metrics.requestsInFlight c)
                   (registry env)))))).
Proof.
  intros Hpath. rewrite metrics_Middleware_unfold by done. cbn zeta.
  unfold scripted. cbn [fst snd]. rewrite metrics_performAll_first.
  cbn [metrics.ResponseWriter metrics.statusCode].
  unfold elapse, setRegistry. cbn [now tokens stdout registry].
  by replace (now env + d - now env) with d by lia.
Qed.

Lemma gauge_Dec_Inc (name : string) (reg : prometheus.Registry) :
  prometheus.gaugeValue name
    (prometheus.GaugeDec name (prometheus.GaugeInc name reg))
  = prometheus.gaugeValue name reg.
Proof. rewrite gaugeValue_GaugeDec, gaugeValue_GaugeInc. lia. Qed.

(** X13.  [n] requests for the same method and route, answered with the
    same status one after the other, add [n] to that series of the request
    counter and [n] observations to that series of the histogram, and leave
    the in-flight gauge where it was. *)
Theorem metrics_sequential_requests (c : metrics.Collector) (call : http.Call)
    (rest : list http.Call) (d : time.Duration) (n : nat)
    (W : Type) (HW : http.ResponseWriter W) (w : W) (r : Request) (env : Env) :
  URL_Path r ≠ "/metrics" →
  let h := metrics.Middleware c (scripted (call :: rest) (elapse d)) in
  let final := registry (snd (serveN h n W HW w r env)) in
  prometheus.counterValue (metrics.requestsTotal c)
    [Method r; metrics.pathLabel r; strconv.Itoa (firstStatus call)] final
  = prometheus.counterValue (metrics.requestsTotal c)
      [Method r; metrics.pathLabel r; strconv.Itoa (firstStatus call)]
      (registry env) + Z.of_nat n
  ∧ prometheus.observations (metrics.requestDuration c)
      [Method r; metrics.pathLabel r] final
    = prometheus.observations (metrics.requestDuration c)
        [Method r; metrics.pathLabel r] (registry env) ++ replicate n d
  ∧ prometheus.gaugeValue (metrics.requestsInFlight c) final
    = prometheus.gaugeValue (metrics.requestsInFlight c) (registry env).
Proof.
  intros Hpath h final. subst final. revert w env.
  induction n as [| n IH]; intros w env.
  - cbn [serveN snd replicate]. rewrite app_nil_r. repeat split. lia.
  - cbn [serveN]. subst h.
    rewrite metrics_Middleware_scripted by done.
    match goal with
    | |- context [serveN ?h n W HW ?w' r ?env'] =>
        destruct (IH w' env') as (Hc & Ho & Hg)
    end.
    rewrite Hc, Ho, Hg. cbn [registry].
    rewrite counterValue_HistogramObserve, counterValue_CounterInc.
    rewrite counterValue_GaugeDec, counterValue_GaugeInc.
    rewrite decide_True by done.
    rewrite observations_HistogramObserve, decide_True by done.
    split; [lia |]. split.
    + cbn [replicate]. rewrite <- app_assoc.
      f_equal.
    + unfold prometheus.HistogramObserve, prometheus.CounterInc.
      unfold prometheus.gaugeValue at 1. cbn [prometheus.gauges].
      apply gauge_Dec_Inc.
Qed.

Lemma metrics_sequential_requests_witness :
  let c := metrics.NewCollector "svc" in
  let r := routed "GET" "/users/7" "/users/{id}" in
  prometheus.counterValue (metrics.requestsTotal c)
    ["GET"; "/users/{id}"; "200"]
    (registry
       (snd (serveN (metrics.Middleware c
                       (scripted [http.CallWrite body0] (elapse 1000000)))
               3 _ _ sink0 r env0)))
  = 3.
Proof.
  intros c r.
  assert (Hpath : URL_Path r ≠ "/metrics") by discriminate.
  exact (proj1 (metrics_sequential_requests c (http.CallWrite body0) []
                  1000000 3 _ _ sink0 r env0 Hpath)).
Defined.

(** X17.  A request answered with one status leaves the series of every
    other status as it was: two different status codes never share a
    series of the request counter. *)
Theorem metrics_status_series_separate (c : metrics.Collector)
    (call : http.Call) (rest : list http.Call) (d : time.Duration)
    (W : Type) (HW : http.ResponseWriter W) (w : W) (r : Request) (env : Env)
    (other : Z) :
  URL_Path r ≠ "/metrics" →
  other ≠ firstStatus call →
  prometheus.counterValue (metrics.requestsTotal c)
    [Method r; metrics.pathLabel r; strconv.Itoa other]
    (registry
       (snd (metrics.Middleware c (scripted (call :: rest) (elapse d))
               W HW w r env)))
  = prometheus.counterValue (metrics.requestsTotal c)
      [Method r; metrics.pathLabel r; strconv.Itoa other] (registry env).
Proof.
  intros Hpath Hother.
  rewrite metrics_Middleware_scripted by done. cbn [snd registry].
  rewrite counterValue_HistogramObserve, counterValue_CounterInc.
  rewrite counterValue_GaugeDec, counterValue_GaugeInc.
  rewrite decide_False; [lia |].
  intros Heq. injection Heq as Heq. by apply Itoa_inj in Heq.
Qed.

Lemma metrics_status_series_separate_witness :
  let c := metrics.NewCollector "svc" in
  let r := request "GET" "/hello" ∅ in
  prometheus.counterValue (metrics.requestsTotal c) ["GET"; "/hello"; "200"]
    (registry
       (snd (metrics.Middleware c
               (scripted [http.CallWriteHeader 500] (elapse 0))
               _ _ sink0 r env0)))
  = 0.
Proof.
  intros c r.
  assert (Hpath : URL_Path r ≠ "/metrics") by discriminate.
  assert (Hother : 200 ≠ firstStatus (http.CallWriteHeader 500))
    by discriminate.
  exact (metrics_status_series_separate c (http.CallWriteHeader 500) []
           0 _ _ sink0 r env0 200 Hpath Hother).
Defined.

Lemma BuildFQName_inj (namespace a b : string) :
  a ≠ "" → b ≠ "" →
  prometheus.BuildFQName namespace a = prometheus.BuildFQName namespace b →
  a = b.
Proof.
  intros Ha Hb. unfold prometheus.BuildFQName.
  destruct (String.eqb_spec a ""); [done |].
  destruct (String.eqb_spec b ""); [done |].
  destruct (String.eqb namespace ""); [done |].
  intros Heq. apply (inj (String.append namespace)) in Heq.
  by apply (inj (String.append "_")) in Heq.
Qed.

Lemma counterValue_CounterInc_other (name name' : string)
    (lvs lvs' : list string) (reg : prometheus.Registry) :
  name ≠ name' →
  prometheus.counterValue name lvs (prometheus.CounterInc name' lvs' reg) =
    prometheus.counterValue name lvs reg.
Proof.
  intros Hne. unfold prometheus.counterValue, prometheus.CounterInc; simpl.
  rewrite lookup_insert_ne; [done | congruence].
Qed.

(** X14.  [RecordError] on the collector of a namespace adds one to the
    error counter of the given type and to nothing else: the other error
    types, every series of the request counter, the histograms, the gauges,
    the clock and the log stay as they were. *)
Theorem metrics_RecordError (namespace errorType : string) (env : Env) :
  let c := metrics.NewCollector namespace in
  let env' := metrics.RecordError c errorType env in
  (∀ t,
     prometheus.counterValue (metrics.errorsTotal c) [t] (registry env')
     = prometheus.counterValue (metrics.errorsTotal c) [t] (registry env)
       + (if decide (t = errorType) then 1 else 0))
  ∧ (∀ lvs,
       prometheus.counterValue (metrics.requestsTotal c) lvs (registry env')
       = prometheus.counterValue (metrics.requestsTotal c) lvs (registry env))
  ∧ prometheus.histograms (registry env') = prometheus.histograms (registry env)
  ∧ prometheus.gauges (registry env') = prometheus.gauges (registry env)
  ∧ stdout env' = stdout env
  ∧ now env' = now env.
Proof.
  intros c env'. subst env'. unfold metrics.RecordError.
  cbn [setRegistry registry stdout now]. split; [| split; [| done]].
  - intros t. rewrite counterValue_CounterInc.
    destruct (decide (t = errorType)) as [-> | Hne].
    + by rewrite decide_True.
    + rewrite decide_False; [done |]. intros Heq. by injection Heq.
  - intros lvs. apply counterValue_CounterInc_other.
    subst c. cbn [metrics.NewCollector metrics.requestsTotal metrics.errorsTotal].
    intros Heq. by apply BuildFQName_inj in Heq.
Qed.

(** ** Further properties: package health *)

(** X15.  The HTTP probe succeeds exactly when the request could be built
    and the client returned a response with a status below 400, so a
    redirect status counts as success.  A status of 400 or more is reported
    with the fixed text of [http.ErrAbortHandler], whatever the status; a
    request that cannot be built is reported with its own error and no
    request is sent; a failed request is reported with the client's
    error. *)
Theorem health_HTTPChecker_outcome
    (NewRequestWithContext : context.Context → string → string → error)
    (Do : time.Duration → context.Context → string → string → Env →
          (string + Z) * Env)
    (name url : string) (ctx : context.Context) (env : Env) :
  let res := health.HTTPChecker NewRequestWithContext Do name url ctx env in
  let sent := Do (3 * time.Second) ctx "GET" url env in
  (fst res = None ↔
   NewRequestWithContext ctx "GET" url = None
   ∧ ∃ status, fst sent = inr status ∧ status < 400)
  ∧ (∀ err, NewRequestWithContext ctx "GET" url = Some err →
            res = (Some err, env))
  ∧ (NewRequestWithContext ctx "GET" url = None →
     snd res = snd sent
     ∧ (∀ err, fst sent = inl err → fst res = Some err)
     ∧ (∀ status, fst sent = inr status → 400 ≤ status →
                  fst res = Some "net/http: abort Handler")).
Proof.
  intros res sent. subst res sent.
  unfold health.HTTPChecker, health.Call. cbn [health.checker].
  change http.MethodGet with "GET".
  destruct (NewRequestWithContext ctx "GET" url) as [err0 |].
  - split; [| split].
    + split; [done | by intros [? _]].
    + by intros err [= ->].
    + done.
  - destruct (Do (3 * time.Second) ctx "GET" url env) as [[err | status] env'];
      cbn [fst snd].
    + split; [| split; [done |]].
      * split; [done | by intros [_ (? & ? & _)]].
      * intros _. split; [done |]. split; [by intros ? [= ->] | done].
    + destruct (Z.leb_spec 400 status) as [Hge | Hlt]; cbn [fst snd].
      * split; [| split; [done |]].
        -- split; [done |]. intros [_ (s & [= <-] & Hs)]. lia.
        -- intros _. split; [done |]. split; [done | by intros ? [= <-] _].
      * split; [| split; [done |]].
        -- split; [intros _; split; [done |]; by exists status | done].
        -- intros _. split; [done |]. split; [done |].
           intros s [= <-] Hs. lia.
Qed.

Lemma health_HTTPChecker_outcome_witness :
  fst (health.HTTPChecker requestOK (answers 302) "upstream"
         "http://upstream/healthz" context.Background env0) = None
  ∧ fst (health.HTTPChecker requestOK (answers 404) "upstream"
           "http://upstream/healthz" context.Background env0)
    = Some "net/http: abort Handler".
Proof.
  split.
  - apply (proj1 (health_HTTPChecker_outcome requestOK (answers 302) "upstream"
                    "http://upstream/healthz" context.Background env0)).
    split; [reflexivity |]. exists 302. split; [reflexivity | lia].
  - destruct (health_HTTPChecker_outcome requestOK (answers 404) "upstream"
                "http://upstream/healthz" context.Background env0)
      as (_ & _ & Hsent).
    destruct (Hsent eq_refl) as (_ & _ & Hstatus).
    apply (Hstatus 404); [reflexivity | lia].
Defined.

(** X16.  The liveness handler reads nothing of the request or of the
    process and changes nothing of the process; it sets the content type and
    makes two calls, [WriteHeader(200)] and one [Write], so that either
    status-capturing wrapper records status 200 for it. *)
Theorem health_LivenessHandler_always_200
    (EncodeMap : gmap string string → bytes)
    (W : Type) (HW : http.ResponseWriter W) (w : W) (r : Request) (env : Env)
    (s0 : Z) :
  let calls :=
    [http.CallWriteHeader 200;
     http.CallWrite (EncodeMap {[ "status" := "ok" ]})] in
  let w' :=
    http.putHeader
      (http.Set_ (http.Header_ w) "Content-Type" "application/json") w in
  health.LivenessHandler EncodeMap W HW w r env = (http.performAll calls w', env)
  ∧ http.Get (http.Header_ w') "Content-Type" = "application/json"
  ∧ logging.statusCode
      (fst (health.LivenessHandler EncodeMap _ _
              (logging.mkResponseWriter w s0 false) r env)) = 200
  ∧ metrics.statusCode
      (fst (health.LivenessHandler EncodeMap _ _
              (metrics.mkResponseWriter w s0 false) r env)) = 200.
Proof.
  intros calls w'. split; [reflexivity |]. split.
  - subst w'. rewrite http.Header_putHeader. apply Get_Set_eq.
  - split.
    + change (fst (health.LivenessHandler EncodeMap _ _
                     (logging.mkResponseWriter w s0 false) r env))
        with (http.performAll calls (logging.mkResponseWriter w' s0 false)).
      subst calls. by rewrite logging_performAll_first.
    + change (fst (health.LivenessHandler EncodeMap _ _
                     (metrics.mkResponseWriter w s0 false) r env))
        with (http.performAll calls (metrics.mkResponseWriter w' s0 false)).
      subst calls. by rewrite metrics_performAll_first.
Qed.

(** ** Further properties: package observability *)

Lemma registry_emit (l : zerolog.Logger) (lvl : zerolog.Level)
    (fields : list zerolog.Field) (msg : string) (env : Env) :
  registry (emit l lvl fields msg env) = registry env.
Proof. unfold emit. by destruct (zerolog.line _ _ _ _ _). Qed.

(** X18.  A stack made by [NewStack], with its middleware in the order
    trace, metrics, logging, around a handler that makes at least one call
    and takes [d]: the request is counted once, under the status that the
    completion event reports, which is the one the handler's first call
    fixed; the event is the last line written, carries the service name and
    the elapsed milliseconds, and the in-flight gauge is back where it
    was. *)
Theorem observability_stack_agrees (svc : string) (debug : bool)
    (call : http.Call) (rest : list http.Call) (d : time.Duration)
    (W : Type) (HW : http.ResponseWriter W) (w : W) (r : Request) (env : Env) :
  URL_Path r ≠ "/metrics" →
  let s := observability.NewStack svc debug in
  let h :=
    observability.TraceMiddleware
      (observability.MetricsMiddleware s
         (observability.LoggingMiddleware s
            (scripted (call :: rest) (elapse d)))) in
  let res := h W HW w r env in
  let code := firstStatus call in
  let key := [Method r; metrics.pathLabel r; strconv.Itoa code] in
  prometheus.counterValue (metrics.requestsTotal (observability.Collector s))
    key (registry (snd res))
  = prometheus.counterValue (metrics.requestsTotal (observability.Collector s))
      key (registry env) + 1
  ∧ prometheus.gaugeValue
      (metrics.requestsInFlight (observability.Collector s))
      (registry (snd res))
    = prometheus.gaugeValue
        (metrics.requestsInFlight (observability.Collector s)) (registry env)
  ∧ now (snd res) = now env + d
  ∧ ∃ e,
      last (stdout (snd res)) = Some e
      ∧ zerolog.entry_message e = "request completed"
      ∧ zerolog.entry_level e = logging.completionLevel code
      ∧ zerolog.Str "service" svc ∈ zerolog.entry_fields e
      ∧ zerolog.Int "http.status" code ∈ zerolog.entry_fields e
      ∧ zerolog.Int64 "duration_ms" (time.Milliseconds d)
        ∈ zerolog.entry_fields e.
Proof.
  intros Hpath s h res code key. subst res h.
  unfold observability.TraceMiddleware, observability.MetricsMiddleware,
    observability.LoggingMiddleware, observability.Collector.
  rewrite trace_Middleware_unfold. cbn zeta.
  set (t := if String.eqb (http.Get (ReqHeader r) "X-Trace-ID") "" then _ else _).
  set (q := if String.eqb (http.Get (ReqHeader r) "X-Request-ID") "" then _ else _).
  set (w1 := http.putHeader _ _).
  set (r1 := Request_WithContext r _).
  assert (Henv : now (snd q) = now env ∧ stdout (snd q) = stdout env
                 ∧ registry (snd q) = registry env).
  { subst q t.
    destruct (String.eqb (http.Get (ReqHeader r) "X-Trace-ID") "");
      destruct (String.eqb (http.Get (ReqHeader r) "X-Request-ID") "");
      done. }
  destruct Henv as (Hnow & Hout & Hreg).
  assert (Hr1 : Method r1 = Method r ∧ URL_Path r1 = URL_Path r
                ∧ metrics.pathLabel r1 = metrics.pathLabel r) by done.
  destruct Hr1 as (Hm & Hu & Hp).
  rewrite metrics_Middleware_unfold by (by rewrite Hu). cbn zeta.
  rewrite logging_Middleware_unfold. cbn zeta.
  unfold scripted. cbn [fst snd].
  destruct (wrappers_nested_agree W HW w1 0 http.StatusOK call rest)
    as (HsL & HsM & _).
  cbv zeta in HsL, HsM. rewrite HsL, HsM. fold code.
  rewrite Hm, Hp. fold key.
  set (g := metrics.requestsInFlight (observability.collector s)).
  set (entered := setRegistry (prometheus.GaugeInc g) (snd q)).
  set (fin := elapse d (loggingStarted (observability.logger s) r1 entered)).
  assert (Hent_now : now entered = now env) by (by subst entered).
  assert (Hfin_now : now fin = now env + d).
  { subst fin. unfold elapse. cbn [now]. unfold loggingStarted.
    by rewrite emit_now, Hent_now. }
  assert (Hfin_reg : registry fin = prometheus.GaugeInc g (registry env)).
  { subst fin. unfold elapse. cbn [registry]. unfold loggingStarted.
    rewrite registry_emit. subst entered. cbn [setRegistry registry].
    by rewrite Hreg. }
  rewrite emit_should by apply NewLogger_should.
  cbn [setRegistry registry now stdout snd].
  rewrite Hfin_now, Hent_now, Hfin_reg, Hnow.
  replace (now env + d - now env) with d by lia.
  split; [| split; [| split]].
  - rewrite counterValue_HistogramObserve, counterValue_CounterInc.
    rewrite counterValue_GaugeDec, counterValue_GaugeInc.
    by rewrite decide_True.
  - unfold prometheus.HistogramObserve, prometheus.CounterInc.
    unfold prometheus.gaugeValue at 1. cbn [prometheus.gauges].
    apply gauge_Dec_Inc.
  - reflexivity.
  - eexists. split; [apply last_snoc |].
    cbn [zerolog.entry_message zerolog.entry_level zerolog.entry_fields].
    split; [reflexivity |]. split; [reflexivity |].
    destruct (logging_WithContext_appends (observability.logger s) (Ctx r1))
      as (extra & -> & _).
    rewrite !elem_of_app. split; [left; left; in_list |].
    split; right; in_list.
Qed.

Lemma observability_stack_agrees_witness :
  let s := observability.NewStack "svc" false in
  let r := routed "POST" "/api/v1/users" "/api/v1/users" in
  prometheus.counterValue (metrics.requestsTotal (observability.Collector s))
    ["POST"; "/api/v1/users"; "201"]
    (registry
       (snd (observability.TraceMiddleware
               (observability.MetricsMiddleware s
                  (observability.LoggingMiddleware s
                     (scripted [http.CallWriteHeader 201; http.CallWrite body0]
                        (elapse 20000000))))
               _ _ sink0 r env0)))
  = 1.
Proof.
  intros s r.
  assert (Hpath : URL_Path r ≠ "/metrics") by discriminate.
  exact (proj1 (observability_stack_agrees "svc" false
                  (http.CallWriteHeader 201) [http.CallWrite body0] 20000000
                  _ _ sink0 r env0 Hpath)).
Defined.




(** X20.  Behind either status-capturing wrapper, the readiness handler is
    recorded with status 200 when every probe returned nil and with status
    503 when some probe returned an error. *)
Theorem health_Readiness_status_captured
    (Encode : health.HealthResponse → bytes)
    (checkers : list health.Checker)
    (W : Type) (HW : http.ResponseWriter W) (w : W) (r : Request) (env : Env)
    (s0 : Z) :
  let ctx := context.WithDeadline (Ctx r) (now env + 5 * time.Second) in
  let errs := outcomes ctx checkers env in
  let logged :=
    logging.statusCode
      (fst (health.ReadinessHandler Encode checkers _ _
              (logging.mkResponseWriter w s0 false) r env)) in
  let counted :=
    metrics.statusCode
      (fst (health.ReadinessHandler Encode checkers _ _
              (metrics.mkResponseWriter w s0 false) r env)) in
  (Forall (λ err, err = None) errs → logged = 200 ∧ counted = 200)
  ∧ (Exists (λ err, err ≠ None) errs → logged = 503 ∧ counted = 503).
Proof.
  intros ctx errs logged counted.
  assert (Hl : logged = if forallb isNil errs then 200 else 503).
  { subst logged. rewrite ReadinessHandler_unfold. cbn zeta. fold ctx errs.
    cbn [fst].
    match goal with
    | |- logging.statusCode (fst (http.Write ?b (http.WriteHeader ?code ?ww))) = _ =>
        change (fst (http.Write b (http.WriteHeader code ww)))
          with (http.performAll [http.CallWriteHeader code; http.CallWrite b]
                  (logging.mkResponseWriter
                     (http.putHeader
                        (http.Set_ (http.Header_ w)
                           "Content-Type" "application/json") w) s0 false))
    end.
    rewrite logging_performAll_first. cbn [logging.statusCode firstStatus].
    by destruct (forallb isNil errs). }
  assert (Hc : counted = if forallb isNil errs then 200 else 503).
  { subst counted. rewrite ReadinessHandler_unfold. cbn zeta. fold ctx errs.
    cbn [fst].
    match goal with
    | |- metrics.statusCode (fst (http.Write ?b (http.WriteHeader ?code ?ww))) = _ =>
        change (fst (http.Write b (http.WriteHeader code ww)))
          with (http.performAll [http.CallWriteHeader code; http.CallWrite b]
                  (metrics.mkResponseWriter
                     (http.putHeader
                        (http.Set_ (http.Header_ w)
                           "Content-Type" "application/json") w) s0 false))
    end.
    rewrite metrics_performAll_first. cbn [metrics.statusCode firstStatus].
    by destruct (forallb isNil errs). }
  rewrite Hl, Hc. split.
  - intros Hall. apply forallb_isNil in Hall. by rewrite Hall.
  - intros Hex. apply forallb_isNil_false in Hex. by rewrite Hex.
Qed.

Lemma health_Readiness_status_captured_witness :
  metrics.statusCode
    (fst (health.ReadinessHandler encodeStatus [probeOK; probeFail "db down"]
            _ _ (metrics.mkResponseWriter sink0 http.StatusOK false)
            (request "GET" "/readyz" ∅) env0))
  = 503.
Proof.
  apply (proj2 (health_Readiness_status_captured encodeStatus
                  [probeOK; probeFail "db down"] _ _ sink0
                  (request "GET" "/readyz" ∅) env0 http.StatusOK)).
  cbn. apply Exists_cons_tl, Exists_cons_hd. discriminate.
Defined.

Lemma canonical_trace_header :
  textproto.CanonicalMIMEHeaderKey "X-Trace-ID" = "X-Trace-Id"
  ∧ textproto.CanonicalMIMEHeaderKey "X-Request-ID" = "X-Request-Id".
Proof. by vm_compute. Qed.

(** X21.  When the inbound trace header has several values, the first one
    decides: it is the trace identifier if it is not empty, and a new token
    is generated if it is, whatever the other values are.  On the response,
    each of the two headers ends up with exactly one value, the resolved
    identifier, replacing any value the writer already had. *)
Theorem trace_header_values (next : Handler) (W : Type)
    (HW : http.ResponseWriter W) (w : W) (r : Request) (env : Env)
    (v : string) (vs : list string) :
  ReqHeader r !! "X-Trace-Id" = Some (v :: vs) →
  ∃ w' ctx' env',
    trace.Middleware next W HW w r env =
      next W HW w' (Request_WithContext r ctx') env'
    ∧ (v ≠ "" → trace.TraceIDFromContext ctx' = v)
    ∧ (v = "" → trace.TraceIDFromContext ctx' = tokens env 0%nat)
    ∧ http.Header_ w' !! "X-Trace-Id" = Some [trace.TraceIDFromContext ctx']
    ∧ http.Header_ w' !! "X-Request-Id"
      = Some [trace.RequestIDFromContext ctx'].
Proof.
  intros Hin.
  destruct canonical_trace_header as [Hct Hcq].
  assert (Hget : http.Get (ReqHeader r) "X-Trace-ID" = v).
  { unfold http.Get. by rewrite Hct, Hin. }
  rewrite trace_Middleware_unfold. cbn zeta. rewrite Hget.
  do 3 eexists. split; [reflexivity |].
  rewrite !http.Header_putHeader. unfold http.Set_. rewrite Hct, Hcq.
  rewrite lookup_insert_ne by discriminate. rewrite !lookup_insert_eq.
  split; [| split; [| split; reflexivity]].
  - intros Hv. by destruct (String.eqb_spec v "").
  - intros ->. reflexivity.
Qed.

Lemma trace_header_values_witness :
  let r :=
    request "GET" "/hello" {[ "X-Trace-Id" := ["abc"; "def"] ]} in
  ∃ w' ctx' env',
    trace.Middleware (scripted [] id) _ _
      (http.mkRecorder {[ "X-Trace-Id" := ["stale"; "older"] ]} []) r env0 =
      scripted [] id _ _ w' (Request_WithContext r ctx') env'
    ∧ trace.TraceIDFromContext ctx' = "abc"
    ∧ http.Header_ w' !! "X-Trace-Id" = Some ["abc"].
Proof.
  intros r.
  assert (Hin : ReqHeader r !! "X-Trace-Id" = Some ("abc" :: ["def"]))
    by reflexivity.
  destruct (trace_header_values (scripted [] id) _ _
              (http.mkRecorder {[ "X-Trace-Id" := ["stale"; "older"] ]} [])
              r env0 "abc" ["def"] Hin)
    as (w' & ctx' & env' & Heq & Hv & _ & Hout & _).
  exists w', ctx', env'. split; [exact Heq |].
  assert (Hid : trace.TraceIDFromContext ctx' = "abc")
    by (apply Hv; discriminate).
  split; [exact Hid |]. by rewrite Hout, Hid.
Defined.
